(** * The Connect worker: notification processing and its test harness

    A shallow embedding of [lib/processNotification.js] and of the message
    handler and start-up token check of the worker's main file, followed by
    the properties of the decode / filter / fulfil / actuate pipeline.

    Everything the worker does not own is an input of the model: the JSON
    and XML parsers, the token provider, the document store, the LIFX
    endpoint and the message's [ack] method answer through the records
    [Config], [Remote] and [Message]; the file system is an explicit state;
    console output and outgoing calls are collected in a trace. *)

From Stdlib Require Import Ascii.
From stdpp Require Import base strings list gmap pretty.

Set Warnings "-register-all".
Open Scope string_scope.

(** ** JavaScript values *)

Module JS.

(** The values that reach the worker: what xml2js builds out of a document
    (strings, arrays, plain objects) together with [undefined] and [null].
    An object is its ordered list of own properties; a string is its
    sequence of code units. *)
Inductive jsval : Type :=
| VUndefined
| VNull
| VStr (s : string)
| VArr (l : list jsval)
| VObj (props : list (string * jsval)).

(** The HTTP response carried by an error of the DocuSign SDK:
    [e.response.status] and [e.response.body], whose [error] member names
    the OAuth problem. *)
Record api_body : Type := { error : option string; json_text : string }.
Record api_response : Type := { status : string; body : option api_body }.

(** What a JavaScript step can raise. [ApiError] is an error object with an
    optional [response] member; the others have none. *)
Inductive exn : Type :=
| TypeError
| XmlError
| JsError (message : string)
| ApiError (response : option api_response)
| IoError (code : string)
| HttpError.

Inductive result (A : Type) : Type :=
| Ok (a : A)
| Err (e : exn).
Arguments Ok {A} a.
Arguments Err {A} e.

Definition rbind {A B} (r : result A) (f : A -> result B) : result B :=
  match r with
  | Ok a => f a
  | Err e => Err e
  end.

(** Truthiness, as used by [if (x)], [!x], [x && y] and [x ? a : b]. *)
Definition truthy (v : jsval) : bool :=
  match v with
  | VUndefined | VNull => false
  | VStr s => negb (String.eqb s "")
  | VArr _ | VObj _ => true
  end.

Fixpoint assoc (k : string) (props : list (string * jsval)) : option jsval :=
  match props with
  | [] => None
  | (k', v) :: rest => if String.eqb k k' then Some v else assoc k rest
  end.

(** [v.name] for the element names the worker reads; none of them is a
    built-in property of arrays or strings, so only objects answer. *)
Definition prop (v : jsval) (name : string) : result jsval :=
  match v with
  | VUndefined | VNull => Err TypeError
  | VObj props => Ok (default VUndefined (assoc name props))
  | VStr _ | VArr _ => Ok VUndefined
  end.

(** [v[0]]. *)
Definition first (v : jsval) : result jsval :=
  match v with
  | VUndefined | VNull => Err TypeError
  | VArr l => Ok (default VUndefined (head l))
  | VStr s =>
      Ok (match s with
          | EmptyString => VUndefined
          | String c _ => VStr (String c EmptyString)
          end)
  | VObj props => Ok (default VUndefined (assoc "0" props))
  end.

Fixpoint join (sep : string) (l : list string) : string :=
  match l with
  | [] => ""
  | [s] => s
  | s :: rest => s +:+ sep +:+ join sep rest
  end.

(** String conversion, as in ["" + v] and in the comparison of an object
    with a string: arrays join their elements, plain objects use
    [Object.prototype.toString]. An object with an own member named
    [toString] has no callable conversion left, and converting it raises a
    [TypeError]. *)
Fixpoint toStr (v : jsval) : result string :=
  match v with
  | VUndefined => Ok "undefined"
  | VNull => Ok "null"
  | VStr s => Ok s
  | VArr l =>
      rbind
        ((fix elems (l : list jsval) : result (list string) :=
            match l with
            | [] => Ok []
            | x :: rest =>
                rbind
                  match x with
                  | VUndefined | VNull => Ok ""
                  | _ => toStr x
                  end
                  (fun s => rbind (elems rest) (fun r => Ok (s :: r)))
            end) l)
        (fun parts => Ok (join "," parts))
  | VObj props =>
      match assoc "toString" props with
      | Some _ => Err TypeError
      | None => Ok "[object Object]"
      end
  end.

(** [v == s] for a string [s]. *)
Definition loose_eq (v : jsval) (s : string) : result bool :=
  match v with
  | VUndefined | VNull => Ok false
  | VStr t => Ok (String.eqb t s)
  | VArr _ | VObj _ => rbind (toStr v) (fun t => Ok (String.eqb t s))
  end.

(** [hay.includes(needle)]. *)
Fixpoint includes (needle hay : string) : bool :=
  String.prefix needle hay ||
  match hay with
  | EmptyString => false
  | String _ rest => includes needle rest
  end.

(** The character class [\w] of a regular expression without flags. *)
Definition is_word (c : Ascii.ascii) : bool :=
  let n := Ascii.nat_of_ascii c in
  (48 <=? n)%nat && (n <=? 57)%nat
  || (65 <=? n)%nat && (n <=? 90)%nat
  || (97 <=? n)%nat && (n <=? 122)%nat
  || (n =? 95)%nat.

(** [s.replace(/\W/g, '_')]. *)
Fixpoint replace_nonword (s : string) : string :=
  match s with
  | EmptyString => EmptyString
  | String c rest =>
      String (if is_word c then c else "_"%char) (replace_nonword rest)
  end.

(** [Array.prototype.find] with a predicate that may raise: the elements
    are tried in order, the first one accepted is returned, [undefined]
    when none is; only arrays have the method. *)
Fixpoint find_in (p : jsval -> result bool) (l : list jsval) : result jsval :=
  match l with
  | [] => Ok VUndefined
  | x :: rest =>
      match p x with
      | Err e => Err e
      | Ok true => Ok x
      | Ok false => find_in p rest
      end
  end.

Definition find (v : jsval) (p : jsval -> result bool) : result jsval :=
  match v with
  | VArr l => find_in p l
  | _ => Err TypeError
  end.

End JS.
Import JS.

(** ** Configuration, collaborators and messages *)

(** [dsConfig], with the two directories the module computes from it when
    it is loaded ([outputDir] and [testOutputDir]). A setting that may be
    missing is an [option]; it is then falsy, as is the empty string. *)
Record Config : Type := {
  debug : bool;
  clientId : option string;
  authServer : string;
  oAuthConsentRedirectURI : string;
  envelopeCustomField : string;
  envelopeColorCustomField : string;
  outputDir : string;
  outputFilePefix : string;
  testOutputDir : string;
  enableBreakTest : bool;
  lifxAccessToken : option string;
  lifxSelector : string
}.

Definition truthy_setting (o : option string) : bool :=
  match o with
  | Some s => negb (String.eqb s "")
  | None => false
  end.

(** The request of step 4: [PUT] on the selector's state with the bearer
    token and the form [{power: 'on', color, duration: 0.0}]. *)
Record lifx_options : Type := {
  lifx_url_selector : string;
  lifx_bearer : option string;
  lifx_color : jsval
}.

(** The answers of the collaborators during the handling of one message. *)
Record Remote : Type := {
  parseStringAsync : string -> result jsval;
  checkToken : result unit;
  accountId : string;
  getDocument : string -> jsval -> result string;
  rp : lifx_options -> result unit
}.

(** The body of a queue message once [JSON.parse] has read it. *)
Record Body : Type := { test : option string; xml : string }.

(** A queue message: its id, what [JSON.parse(message.data.toString('utf8'))]
    gives ([Err] when it raises, [Ok None] for a falsy value) and what
    [message.ack()] raises, if anything. *)
Record Message : Type := {
  id : string;
  json : result (option Body);
  ack_raises : option exn
}.

(** ** File system, trace and the monad of the worker *)

(** The file system: what is at each path, a regular file with its
    content or a directory. An entry is created or moved only into a
    directory that is there (see [parent_error]). *)
Inductive node : Type :=
| File (content : string)
| Dir.

Abbreviation files := (gmap string node).

(** What the step-1 block of [process] binds. *)
Record notification : Type := {
  envelopeId : jsval;
  created : jsval;
  envStatus : jsval;
  completed : option jsval;
  subject : jsval;
  senderName : jsval;
  senderEmail : jsval;
  orderNumber : jsval;
  lightColor : jsval
}.

(** Console lines, by the statement that prints them (the time stamp that
    prefixes most of them is left out). *)
Inductive logmsg : Type :=
| MsgProcessing (id : string)
| MsgBadBody (id : string)
| MsgAckError
| MsgReceived (n : notification)
| MsgIgnoredStatus (status : jsval)
| MsgIgnoredNoField (field : string)
| MsgSaveDocError (envelopeId orderNumber : jsval)
| MsgException (e : exn)
| MsgBreaking
| MsgProcessingTest (test : string)
| MsgProblemConfigure
| MsgConsentRequired (consent_url : string)
| MsgApiProblem (status : string) (body_text : string).

Inductive event : Type :=
| ConsoleLog (m : logmsg)
| ConsoleError (m : logmsg)
| CheckToken
| GetDocument (accountId : string) (envelopeId : jsval)
| LifxPut (options : lifx_options)
| Ack
| Nack.

(** How a computation ends: normally, with an exception (a rejected
    promise), or by [process.exit(code)]. *)
Inductive outcome (A : Type) : Type :=
| Ret (a : A)
| Throw (e : exn)
| Exit (code : option Z).
Arguments Ret {A} a.
Arguments Throw {A} e.
Arguments Exit {A} code.

Record res (A : Type) : Type := mkRes {
  out : outcome A;
  fs : files;
  evs : list event
}.
Arguments mkRes {A} out fs evs.
Arguments out {A} r.
Arguments fs {A} r.
Arguments evs {A} r.

Definition M (A : Type) : Type := files -> res A.

Definition ret {A} (a : A) : M A := fun s => mkRes (Ret a) s [].
Definition throw {A} (e : exn) : M A := fun s => mkRes (Throw e) s [].
Definition process_exit {A} (code : option Z) : M A := fun s => mkRes (Exit code) s [].
Definition emit (e : event) : M unit := fun s => mkRes (Ret tt) s [e].

Definition bind {A B} (m : M A) (f : A -> M B) : M B :=
  fun s =>
    match m s with
    | mkRes (Ret a) s1 e1 =>
        match f a s1 with
        | mkRes o s2 e2 => mkRes o s2 (e1 ++ e2)
        end
    | mkRes (Throw e) s1 e1 => mkRes (Throw e) s1 e1
    | mkRes (Exit c) s1 e1 => mkRes (Exit c) s1 e1
    end.

(** [try { m } catch (e) { h e }]: only exceptions are caught, an exit
    ends the process. *)
Definition try_catch {A} (m : M A) (h : exn -> M A) : M A :=
  fun s =>
    match m s with
    | mkRes (Throw e) s1 e1 =>
        match h e s1 with
        | mkRes o s2 e2 => mkRes o s2 (e1 ++ e2)
        end
    | r => r
    end.

Definition lift {A} (r : result A) : M A :=
  match r with
  | Ok a => ret a
  | Err e => throw e
  end.

Notation "x <- m ;; k" := (bind m (fun x => k))
  (at level 100, m at next level, right associativity).
Notation "m ;;; k" := (bind m (fun _ => k))
  (at level 100, right associativity).
Notation "x <~ r ;; k" := (rbind r (fun x => k))
  (at level 100, r at next level, right associativity).

(** The status the operating system sees: [process.exit()] without a code
    ends with the success status 0 (nothing in the worker sets
    [process.exitCode]). *)
Definition exit_status (code : option Z) : Z := default 0%Z code.

Definition console_log (m : logmsg) : M unit := emit (ConsoleLog m).
Definition console_error (m : logmsg) : M unit := emit (ConsoleError m).

(** *** The file system calls of fs-extra that the worker uses *)

(** [path.join(dir, name)] for a directory and a file name that need no
    normalisation. *)
Definition path_join (dir name : string) : string := dir +:+ "/" +:+ name.

(** The part of a path before its last ["/"], if it has one. *)
Fixpoint before_last_slash (p : string) : option string :=
  match p with
  | EmptyString => None
  | String c rest =>
      match before_last_slash rest with
      | Some d => Some (String c d)
      | None => if Ascii.eqb c "/" then Some EmptyString else None
      end
  end.

(** [path.dirname(p)] for a path that needs no normalisation: the
    directory that holds [p]; the working directory ["."] for a bare name,
    the root for a name in the root. *)
Definition dirname (p : string) : string :=
  match before_last_slash p with
  | Some EmptyString => "/"
  | Some d => d
  | None => "."
  end.

(** What a call that creates or moves an entry at [p] raises when the
    directory that should hold [p] is a regular file or is missing. *)
Definition parent_error (s : files) (p : string) : option exn :=
  match s !! dirname p with
  | Some Dir => None
  | Some (File _) => Some (IoError "ENOTDIR")
  | None => Some (IoError "ENOENT")
  end.

Definition fse_exists (p : string) : M bool :=
  fun s => mkRes (Ret (match s !! p with Some _ => true | None => false end)) s [].

(** [fse.mkdir(p)]: not recursive. *)
Definition fse_mkdir (p : string) : M unit :=
  fun s =>
    match parent_error s p with
    | Some e => mkRes (Throw e) s []
    | None =>
        match s !! p with
        | Some _ => mkRes (Throw (IoError "EEXIST")) s []
        | None => mkRes (Ret tt) (<[p := Dir]> s) []
        end
    end.

(** Creates the file or replaces its content. *)
Definition fse_writeFile (p : string) (data : string) : M unit :=
  fun s =>
    match parent_error s p with
    | Some e => mkRes (Throw e) s []
    | None =>
        match s !! p with
        | Some Dir => mkRes (Throw (IoError "EISDIR")) s []
        | _ => mkRes (Ret tt) (<[p := File data]> s) []
        end
    end.

(** Moves a file, replacing the target. The content of a directory is not
    followed through a rename; the harness keeps regular files only. *)
Definition fse_renameSync (old new : string) : M unit :=
  fun s =>
    match parent_error s old with
    | Some e => mkRes (Throw e) s []
    | None =>
        match s !! old with
        | None => mkRes (Throw (IoError "ENOENT")) s []
        | Some (File c) =>
            match parent_error s new with
            | Some e => mkRes (Throw e) s []
            | None =>
                match s !! new with
                | Some Dir => mkRes (Throw (IoError "EISDIR")) s []
                | _ => mkRes (Ret tt) (<[new := File c]> (delete old s)) []
                end
            end
        | Some Dir =>
            match parent_error s new with
            | Some e => mkRes (Throw e) s []
            | None =>
                match s !! new with
                | Some (File _) => mkRes (Throw (IoError "ENOTDIR")) s []
                | _ => mkRes (Ret tt) (<[new := Dir]> (delete old s)) []
                end
            end
        end
    end.

(** ** The worker *)

Section Worker.

Context (cfg : Config) (R : Remote).

(** [dsJwtAuth.checkToken()]. *)
Definition dsJwtAuth_checkToken : M unit :=
  emit CheckToken ;;; lift (checkToken R).

(** [envelopesApi.getDocument(dsJwtAuth.accountId, envelopeId, "combined", null)]. *)
Definition envelopesApi_getDocument (envelopeId : jsval) : M string :=
  emit (GetDocument (accountId R) envelopeId) ;;;
  lift (getDocument R (accountId R) envelopeId).

(** *** [getOrderNumber] and [getLightColor] *)

Definition getOrderNumber (envelopeStatus : jsval) : result jsval :=
  customFields <~
    (a <~ prop envelopeStatus "CustomFields" ;; b <~ first a ;; prop b "CustomField") ;;
  orderField <~
    find customFields
      (fun field =>
         a <~ prop field "Name" ;; name <~ first a ;;
         loose_eq name (envelopeCustomField cfg)) ;;
  if truthy orderField
  then (a <~ prop orderField "Value" ;; first a)
  else Ok VNull.

Definition getLightColor (envelopeStatus : jsval) : result jsval :=
  customFields <~
    (a <~ prop envelopeStatus "CustomFields" ;; b <~ first a ;; prop b "CustomField") ;;
  colorField <~
    find customFields
      (fun field =>
         a <~ prop field "Name" ;; name <~ first a ;;
         loose_eq name (envelopeColorCustomField cfg)) ;;
  if truthy colorField
  then (a <~ prop colorField "Value" ;; first a)
  else Ok VNull.

(** *** [saveDoc] *)

(** [orderNumber.replace(/\W/g, '_')]: only a string has the method. *)
Definition sanitizedOrderNumber (orderNumber : jsval) : result string :=
  match orderNumber with
  | VStr s => Ok (replace_nonword s)
  | _ => Err TypeError
  end.

Definition fileName (sanitized : string) : string :=
  outputFilePefix cfg +:+ sanitized +:+ ".pdf".

Definition saveDoc (envelopeId orderNumber : jsval) : M unit :=
  try_catch
    (dsJwtAuth_checkToken ;;;
     docResult <- envelopesApi_getDocument envelopeId ;;
     sanitized <- lift (sanitizedOrderNumber orderNumber) ;;
     dirExists <- fse_exists (outputDir cfg) ;;
     (if negb dirExists then fse_mkdir (outputDir cfg) else ret tt) ;;;
     fse_writeFile (path_join (outputDir cfg) (fileName sanitized)) docResult ;;;
     if enableBreakTest cfg
     then
       shown <- lift (toStr orderNumber) ;;
       if includes "/break" shown then throw (JsError "Break test") else ret tt
     else ret tt)
    (fun e =>
       console_error (MsgSaveDocError envelopeId orderNumber) ;;;
       console_error (MsgException e) ;;;
       throw (JsError "saveDoc error")).

(** *** [processTest] *)

Definition testFile (i : nat) : string := "test" +:+ pretty i +:+ ".txt".

(** The loop [for (let i = 19; i >= 1; i--)], started at [i]. *)
Fixpoint processTest_loop (i : nat) : M unit :=
  match i with
  | O => ret tt
  | S k =>
      let oldFile := testFile i in
      let newFile := testFile (i + 1) in
      try_catch
        (fse_renameSync (path_join (testOutputDir cfg) oldFile)
                        (path_join (testOutputDir cfg) newFile))
        (fun _ => ret tt) ;;;
      processTest_loop k
  end.

Definition processTest (test : string) : M unit :=
  (if enableBreakTest cfg && includes "/break" test
   then console_error MsgBreaking ;;; process_exit (Some 2%Z)
   else ret tt) ;;;
  console_log (MsgProcessingTest test) ;;;
  dirExists <- fse_exists (testOutputDir cfg) ;;
  (if negb dirExists then fse_mkdir (testOutputDir cfg) else ret tt) ;;;
  processTest_loop 19 ;;;
  fse_writeFile (path_join (testOutputDir cfg) "test1.txt") test.

(** *** [process] *)

(** The values that the notification line of [process] prints, as the
    template string converts them, in the order of the template (the
    date and [completedMsg], which are strings, are left out). *)
Definition received_line (n : notification) : result (list string) :=
  envelopeId' <~ toStr (envelopeId n) ;;
  status' <~ toStr (envStatus n) ;;
  orderNumber' <~ toStr (orderNumber n) ;;
  subject' <~ toStr (subject n) ;;
  senderName' <~ toStr (senderName n) ;;
  senderEmail' <~ toStr (senderEmail n) ;;
  lightColor' <~ toStr (lightColor n) ;;
  created' <~ toStr (created n) ;;
  Ok [envelopeId'; status'; orderNumber'; subject'; senderName'; senderEmail';
      lightColor'; created'].

(** Step 1 of [process], after the XML is parsed: the constants read from
    the message. [completed] is [None] for the literal [false]. *)
Definition process_step1 (msg : jsval) : result notification :=
  envelopeStatus <~
    (a <~ prop msg "DocuSignEnvelopeInformation" ;;
     b <~ prop a "EnvelopeStatus" ;; first b) ;;
  envelopeId <~ (a <~ prop envelopeStatus "EnvelopeID" ;; first a) ;;
  created <~ (a <~ prop envelopeStatus "Created" ;; first a) ;;
  status <~ (a <~ prop envelopeStatus "Status" ;; first a) ;;
  completed <~
    (isCompleted <~ loose_eq status "Completed" ;;
     if isCompleted
     then (a <~ prop envelopeStatus "Completed" ;; c <~ first a ;; Ok (Some c))
     else Ok None) ;;
  subject <~ (a <~ prop envelopeStatus "Subject" ;; first a) ;;
  senderName <~ (a <~ prop envelopeStatus "UserName" ;; first a) ;;
  senderEmail <~ (a <~ prop envelopeStatus "Email" ;; first a) ;;
  completedMsg <~
    match completed with
    | Some c =>
        if truthy c then (t <~ toStr c ;; Ok ("Completed " +:+ t +:+ "."))
        else Ok ""
    | None => Ok ""
    end ;;
  orderNumber <~ getOrderNumber envelopeStatus ;;
  lightColor <~ getLightColor envelopeStatus ;;
  Ok {| envelopeId := envelopeId; created := created; envStatus := status;
        completed := completed; subject := subject; senderName := senderName;
        senderEmail := senderEmail; orderNumber := orderNumber;
        lightColor := lightColor |}.

(** The condition of step 4. *)
Definition lifx_enabled (lightColor : jsval) : bool :=
  truthy lightColor
  && truthy_setting (lifxAccessToken cfg)
  && negb (bool_decide (lifxAccessToken cfg = Some "{LIFX_ACCESS_TOKEN}")).

Definition lifx_request (lightColor : jsval) : lifx_options :=
  {| lifx_url_selector := lifxSelector cfg;
     lifx_bearer := lifxAccessToken cfg;
     lifx_color := lightColor |}.

(** The test branch runs [processTest] under the lock ["test_data"]; one
    message at a time is handled here, so the lock is always free. *)
Definition process (test : option string) (xml : string) : M unit :=
  if truthy_setting test then processTest (default "" test)
  else
    msg <- lift (parseStringAsync R xml) ;;
    n <- lift (process_step1 msg) ;;
    line <- lift (received_line n) ;;
    console_log (MsgReceived n) ;;;
    isCompleted <- lift (loose_eq (envStatus n) "Completed") ;;
    if negb isCompleted then
      (if debug cfg then console_log (MsgIgnoredStatus (envStatus n)) else ret tt)
    else if negb (truthy (orderNumber n)) then
      (if debug cfg
       then console_log (MsgIgnoredNoField (envelopeCustomField cfg))
       else ret tt)
    else
      try_catch (saveDoc (envelopeId n) (orderNumber n))
        (fun _ => throw (JsError "job process#saveDoc error")) ;;;
      if lifx_enabled (lightColor n)
      then
        try_catch
          (emit (LifxPut (lifx_request (lightColor n))) ;;;
           lift (rp R (lifx_request (lightColor n))))
          (fun _ => ret tt)
      else ret tt.

(** *** [messageHandler] and [testToken] *)

Definition message_ack (message : Message) : M unit :=
  emit Ack ;;;
  match ack_raises message with
  | Some e => throw e
  | None => ret tt
  end.

Definition messageHandler (message : Message) : M unit :=
  (if debug cfg then console_log (MsgProcessing (id message)) else ret tt) ;;;
  let body :=
    match json message with
    | Ok b => b
    | Err _ => None
    end in
  match body with
  | Some b => process (test b) (xml b)
  | None => console_log (MsgBadBody (id message))
  end ;;;
  try_catch (message_ack message)
    (fun e => console_error MsgAckError ;;; console_error (MsgException e)).

Definition consent_url : string :=
  "https://" +:+ authServer cfg
  +:+ "/oauth/auth?response_type=code&scope=signature%20impersonation&client_id="
  +:+ default "undefined" (clientId cfg)
  +:+ "&redirect_uri=" +:+ oAuthConsentRedirectURI cfg.

Definition testToken : M unit :=
  try_catch
    ((if negb (truthy_setting (clientId cfg))
         || bool_decide (clientId cfg = Some "{CLIENT_ID}")
      then console_log MsgProblemConfigure ;;; process_exit None
      else ret tt) ;;;
     dsJwtAuth_checkToken)
    (fun e =>
       let body :=
         match e with
         | ApiError (Some r) => body r
         | _ => None
         end in
       match body with
       | Some b =>
           if truthy_setting (error b)
              && bool_decide (error b = Some "consent_required")
           then console_log (MsgConsentRequired consent_url) ;;; process_exit None
           else
             console_log
               (MsgApiProblem
                  match e with
                  | ApiError (Some r) => status r
                  | _ => ""
                  end
                  (json_text b)) ;;;
             process_exit None
       | None => throw e
       end).

End Worker.

(** ** Observations on a run *)

Fixpoint count (p : event -> bool) (l : list event) : nat :=
  match l with
  | [] => 0
  | e :: rest => (if p e then 1 else 0) + count p rest
  end.

Definition is_ack (e : event) : bool :=
  match e with Ack => true | _ => false end.
Definition is_nack (e : event) : bool :=
  match e with Nack => true | _ => false end.
Definition is_fulfillment (e : event) : bool :=
  match e with CheckToken | GetDocument _ _ => true | _ => false end.
Definition is_actuation (e : event) : bool :=
  match e with LifxPut _ => true | _ => false end.
Definition is_console (e : event) : bool :=
  match e with ConsoleLog _ | ConsoleError _ => true | _ => false end.

Definition acks (l : list event) : nat := count is_ack l.
Definition nacks (l : list event) : nat := count is_nack l.

(** The events that follow the first actuation call. *)
Fixpoint after_actuation (l : list event) : list event :=
  match l with
  | [] => []
  | e :: rest => if is_actuation e then rest else after_actuation rest
  end.

(** ** Vocabulary of the properties *)

(** [field.Name[0]] and [field.Value[0]] of an envelope custom field, and
    [envelopeStatus.CustomFields[0].CustomField]. *)
Definition field_name (field : jsval) : result jsval :=
  a <~ prop field "Name" ;; first a.
Definition field_value (field : jsval) : result jsval :=
  a <~ prop field "Value" ;; first a.
Definition customFields_of (envelopeStatus : jsval) : result jsval :=
  a <~ prop envelopeStatus "CustomFields" ;; b <~ first a ;; prop b "CustomField".

(** The predicate that both extractors hand to [find]. *)
Definition name_is (key : string) (field : jsval) : result bool :=
  a <~ prop field "Name" ;; name <~ first a ;; loose_eq name key.

(** A field whose name can be read and is not the one looked for. *)
Definition other_field (key : string) (field : jsval) : Prop :=
  exists name, field_name field = Ok name /\ loose_eq name key = Ok false.
(** A field whose name can be read and is the one looked for. *)
Definition matching_field (key : string) (field : jsval) : Prop :=
  exists name, field_name field = Ok name /\ loose_eq name key = Ok true.

(** Decoding a payload: what [process] computes from it before the filter
    of step 2, that is the XML parser, step 1 and the text of the
    notification line. *)
Definition decode (cfg : Config) (R : Remote) (xml : string) : result notification :=
  msg <~ parseStringAsync R xml ;;
  n <~ process_step1 cfg msg ;;
  line <~ received_line n ;;
  Ok n.

(** A notification that passes the filter of step 2. *)
Definition eligible (n : notification) : bool :=
  match loose_eq (envStatus n) "Completed" with
  | Ok true => truthy (orderNumber n)
  | _ => false
  end.

(** The trace of the last statement of [messageHandler]: the call of
    [message.ack()] and, when it raises, the two error lines. *)
Definition ack_events (message : Message) : list event :=
  Ack ::
  match ack_raises message with
  | Some e => [ConsoleError MsgAckError; ConsoleError (MsgException e)]
  | None => []
  end.

(** The trace of the first statement of [messageHandler]. *)
Definition debug_events (cfg : Config) (message : Message) : list event :=
  if debug cfg then [ConsoleLog (MsgProcessing (id message))] else [].

(** Where [saveDoc] stores the documents of the order [K]. *)
Definition artifact_path (cfg : Config) (K : string) : string :=
  path_join (outputDir cfg) (fileName cfg (replace_nonword K)).

(** The marker file [test<i>.txt] of the harness. *)
Definition test_path (cfg : Config) (i : nat) : string :=
  path_join (testOutputDir cfg) (testFile i).

(** No marker file of the harness is a directory. *)
Definition markers_are_files (cfg : Config) (s : files) : Prop :=
  forall i, s !! test_path cfg i <> Some Dir.


(** A directory the worker can use: it is there, or it is missing and
    can be made in the directory that holds it. *)
Definition usable_dir (s : files) (d : string) : Prop :=
  s !! d = Some Dir \/ (s !! d = None /\ s !! dirname d = Some Dir).

(** [saveDoc] can store: the output directory is named and usable, and
    the file prefix names no directory of its own. *)
Definition output_ready (cfg : Config) (s : files) : Prop :=
  outputDir cfg <> ""
  /\ includes "/" (outputFilePefix cfg) = false
  /\ usable_dir s (outputDir cfg).

(** The harness can store: the test directory is named and usable. *)
Definition harness_ready (cfg : Config) (s : files) : Prop :=
  testOutputDir cfg <> "" /\ usable_dir s (testOutputDir cfg).

(** A test value that the harness stores: it is a test (not empty) and it
    does not trigger the break. *)
Definition stored_test (cfg : Config) (v : string) : Prop :=
  v <> "" /\ enableBreakTest cfg && includes "/break" v = false.

(** The exit status of a run that ended by [process.exit]. *)
Definition status_of {A} (o : outcome A) : option Z :=
  match o with
  | Exit code => Some (exit_status code)
  | _ => None
  end.

(** ** Sample data *)

Module Sample.

Definition field (name value : string) : jsval :=
  VObj [("Name", VArr [VStr name]); ("Value", VArr [VStr value])].

(** The [EnvelopeStatus] element of a Connect notification, as xml2js
    returns it, for the given status and envelope custom fields. *)
Definition envelopeStatus (status : string) (fields : list jsval) : jsval :=
  VObj [("EnvelopeID", VArr [VStr "4f1c-01"]);
        ("Created", VArr [VStr "2019-03-01T10:00:00"]);
        ("Status", VArr [VStr status]);
        ("Completed", VArr [VStr "2019-03-01T11:00:00"]);
        ("Subject", VArr [VStr "Please sign"]);
        ("UserName", VArr [VStr "Pat Sender"]);
        ("Email", VArr [VStr "pat@example.com"]);
        ("CustomFields", VArr [VObj [("CustomField", VArr fields)]])].

Definition envelope (status : string) (fields : list jsval) : jsval :=
  VObj [("DocuSignEnvelopeInformation",
    VObj [("EnvelopeStatus", VArr [envelopeStatus status fields])])].

(** Custom fields in which the order number occurs twice. *)
Definition twice : list jsval :=
  [field "Region" "EU"; field "Sales order" "A"; field "Sales order" "B"].

Definition cfg : Config :=
  {| debug := false;
     clientId := Some "c0ffee";
     authServer := "account-d.docusign.com";
     oAuthConsentRedirectURI := "https://www.docusign.com";
     envelopeCustomField := "Sales order";
     envelopeColorCustomField := "Light color";
     outputDir := "/srv/worker/output";
     outputFilePefix := "order_";
     testOutputDir := "test_messages";
     enableBreakTest := true;
     lifxAccessToken := Some "lifx-secret";
     lifxSelector := "all" |}.

Definition order : jsval :=
  envelope "Completed" [field "Sales order" "SO-123/A"; field "Light color" "green"].

(** What step 1 reads from [order]. *)
Definition order_notification : notification :=
  {| envelopeId := VStr "4f1c-01"; created := VStr "2019-03-01T10:00:00";
     envStatus := VStr "Completed";
     completed := Some (VStr "2019-03-01T11:00:00");
     subject := VStr "Please sign"; senderName := VStr "Pat Sender";
     senderEmail := VStr "pat@example.com";
     orderNumber := VStr "SO-123/A"; lightColor := VStr "green" |}.

(** A disk on which the worker's directory and its working directory
    are there, and nothing else. *)
Definition disk : files := {["/srv/worker" := Dir; "." := Dir]}.

(** A world in which every collaborator answers; the XML parser knows the
    documents ["<order/>"] and ["<sent/>"]. *)
Definition remote : Remote :=
  {| parseStringAsync := fun xml =>
       if String.eqb xml "<order/>" then Ok order
       else if String.eqb xml "<sent/>"
       then Ok (envelope "Sent" [field "Sales order" "SO-123/A"])
       else Err XmlError;
     checkToken := Ok tt;
     accountId := "acct-1";
     getDocument := fun _ _ => Ok "%PDF-1.4 combined";
     rp := fun _ => Ok tt |}.

(** The configuration as it is shipped, before the operator fills it in. *)
Definition unconfigured : Config :=
  {| debug := false;
     clientId := Some "{CLIENT_ID}";
     authServer := "account-d.docusign.com";
     oAuthConsentRedirectURI := "https://www.docusign.com";
     envelopeCustomField := "Sales order";
     envelopeColorCustomField := "Light color";
     outputDir := "/srv/worker/output";
     outputFilePefix := "order_";
     testOutputDir := "test_messages";
     enableBreakTest := true;
     lifxAccessToken := Some "{LIFX_ACCESS_TOKEN}";
     lifxSelector := "all" |}.

(** A world in which the user has not consented yet. *)
Definition remote_no_consent : Remote :=
  {| parseStringAsync := fun _ => Err XmlError;
     checkToken :=
       Err (ApiError (Some {| status := "400";
                              body := Some {| error := Some "consent_required";
                                              json_text := "{...}" |} |}));
     accountId := "acct-1";
     getDocument := fun _ _ => Err HttpError;
     rp := fun _ => Ok tt |}.

(** The same world with the document store failing. *)
Definition remote_down : Remote :=
  {| parseStringAsync := parseStringAsync remote;
     checkToken := Ok tt;
     accountId := "acct-1";
     getDocument := fun _ _ => Err HttpError;
     rp := fun _ => Ok tt |}.

(** The same world with the LIFX endpoint failing. *)
Definition remote_dark : Remote :=
  {| parseStringAsync := parseStringAsync remote;
     checkToken := Ok tt;
     accountId := "acct-1";
     getDocument := getDocument remote;
     rp := fun _ => Err HttpError |}.

Definition message (xml : string) : Message :=
  {| id := "m-1"; json := Ok (Some {| test := Some ""; xml := xml |});
     ack_raises := None |}.

End Sample.

(** ** The queue listener *)

Module Listener.

(** Where the set-up of the subscription can raise: [new PubSub()],
    [pubsub.subscription(name)] and [subscription.on('message', ...)]. *)
Inductive stage : Type :=
| NewPubSub
| GetSubscription
| OnMessage.

(** What [listenForever] does, besides the start-up token check whose
    events are wrapped in [Worker]. *)
Inductive levent : Type :=
| Worker (e : event)
| Starting
| Listening
| RemoveListener
| QueueError (e : exn)
| Sleep (seconds : nat).

(** The variables [restart] and [subscription] (is it set?) of
    [listenForever], with the number of calls of [startQueue] so far. *)
Record state : Type := {
  restart : bool;
  subscription : bool;
  attempts : nat
}.

Definition initial : state :=
  {| restart := true; subscription := false; attempts := 0 |}.

(** How the loop of [listenForever] stands: still running after the
    iterations looked at, or not entered because the token check raised
    or ended the process. *)
Inductive standing : Type :=
| Running (st : state)
| Rejected (e : exn)
| Exited (code : option Z).

Section Loop.

(** The answer of the queue service to each call of [startQueue]: [None]
    when the listener is registered, or the step that raises and what it
    raises. *)
Context (connect : nat -> option (stage * exn)).

(** [startQueue]. In the handler [subscription.removeListener] is reached
    only when [subscription] is set; what it raises is dropped. *)
Definition startQueue (st : state) : state * list levent :=
  match connect (attempts st) with
  | None =>
      ({| restart := restart st; subscription := true;
          attempts := S (attempts st) |},
       [Listening])
  | Some (stg, e) =>
      let sub :=
        match stg with
        | OnMessage => true
        | NewPubSub | GetSubscription => subscription st
        end in
      ({| restart := true; subscription := sub; attempts := S (attempts st) |},
       ((if sub then [RemoveListener] else []) ++ [QueueError e; Sleep 5])%list)
  end.

(** The events of the first call of [startQueue]. *)
Definition first_start : list levent :=
  match connect 0 with
  | None => [Listening]
  | Some (stg, e) =>
      (match stg with OnMessage => [RemoveListener] | _ => [] end
       ++ [QueueError e; Sleep 5])%list
  end.

(** One turn of [while (true)]. *)
Definition turn (st : state) : state * list levent :=
  if restart st then
    let '(st1, ev1) := startQueue st in
    ({| restart := false; subscription := subscription st1;
        attempts := attempts st1 |},
     (Starting :: ev1 ++ [Sleep 5; Sleep 5])%list)
  else (st, [Sleep 5]).

(** The first [n] turns of the loop. *)
Fixpoint turns (n : nat) (st : state) : state * list levent :=
  match n with
  | O => (st, [])
  | S k =>
      let '(st1, ev1) := turn st in
      let '(st2, ev2) := turns k st1 in
      (st2, (ev1 ++ ev2)%list)
  end.

(** [listenForever], observed for [n] turns of its loop. *)
Definition listenForever (cfg : Config) (R : Remote) (n : nat) (s : files)
  : standing * list levent :=
  match testToken cfg R s with
  | mkRes (Ret _) _ e1 =>
      let '(st, e2) := turns n initial in
      (Running st, (map Worker e1 ++ e2)%list)
  | mkRes (Throw e) _ e1 => (Rejected e, map Worker e1)
  | mkRes (Exit c) _ e1 => (Exited c, map Worker e1)
  end.

End Loop.

Definition is_starting (e : levent) : bool :=
  match e with Starting => true | _ => false end.
Definition is_listening (e : levent) : bool :=
  match e with Listening => true | _ => false end.

Fixpoint lcount (p : levent -> bool) (l : list levent) : nat :=
  match l with
  | [] => 0
  | e :: rest => (if p e then 1 else 0) + lcount p rest
  end.

End Listener.

(** ** More vocabulary *)

(** The bodies of a batch of queue messages, handled one after the other
    by [process]. *)
Fixpoint process_all (cfg : Config) (R : Remote) (bodies : list Body) : M unit :=
  match bodies with
  | [] => ret tt
  | b :: rest => process cfg R (test b) (xml b) ;;; process_all cfg R rest
  end.

(** The configuration with another [debug] setting. *)
Definition with_debug (d : bool) (cfg : Config) : Config :=
  {| debug := d;
     clientId := clientId cfg;
     authServer := authServer cfg;
     oAuthConsentRedirectURI := oAuthConsentRedirectURI cfg;
     envelopeCustomField := envelopeCustomField cfg;
     envelopeColorCustomField := envelopeColorCustomField cfg;
     outputDir := outputDir cfg;
     outputFilePefix := outputFilePefix cfg;
     testOutputDir := testOutputDir cfg;
     enableBreakTest := enableBreakTest cfg;
     lifxAccessToken := lifxAccessToken cfg;
     lifxSelector := lifxSelector cfg |}.

(** The same message with an [ack] method that does not raise. *)
Definition acking (message : Message) : Message :=
  {| id := id message; json := json message; ack_raises := None |}.

(** The start-up check of the configuration in [testToken] passes. *)
Definition configured (cfg : Config) : bool :=
  truthy_setting (clientId cfg)
  && negb (bool_decide (clientId cfg = Some "{CLIENT_ID}")).

(** An error that carries no response body: [e.response && e.response.body]
    is falsy. *)
Definition no_response_body (e : exn) : Prop :=
  match e with
  | ApiError (Some r) => body r = None
  | _ => True
  end.

(** A step that can only raise a [TypeError]. *)
Definition only_TypeError {A} (r : result A) : Prop :=
  forall e, r = Err e -> e = TypeError.

(** The events of a run that are not console lines. *)
Definition calls (l : list event) : list event :=
  List.filter (fun e => negb (is_console e)) l.

(** A path that is none of the marker files of the harness. *)
Definition not_a_marker (cfg : Config) (q : string) : Prop :=
  forall j, q <> test_path cfg j.

(** The envelope status element that step 1 of [process] reads from a
    parsed message. *)
Definition envelopeStatus_of (msg : jsval) : result jsval :=
  a <~ prop msg "DocuSignEnvelopeInformation" ;;
  b <~ prop a "EnvelopeStatus" ;; first b.

(** More sample data. *)
Module Sample2.

(** A queue service that is down at the first call of [startQueue] and up
    afterwards. *)
Definition down_once (attempt : nat) : option (Listener.stage * exn) :=
  match attempt with
  | O => Some (Listener.NewPubSub, JsError "Could not load the default credentials")
  | S _ => None
  end.


(** The envelope status of a sent envelope without custom fields: xml2js
    reads the empty [CustomFields] element as an empty string. *)
Definition bare_status : jsval :=
  VObj [("EnvelopeID", VArr [VStr "4f1c-02"]);
        ("Created", VArr [VStr "2019-03-01T10:00:00"]);
        ("Status", VArr [VStr "Sent"]);
        ("Subject", VArr [VStr "Please sign"]);
        ("UserName", VArr [VStr "Pat Sender"]);
        ("Email", VArr [VStr "pat@example.com"]);
        ("CustomFields", VArr [VStr ""])].

(** The Connect notification of that envelope. *)
Definition bare : jsval :=
  VObj [("DocuSignEnvelopeInformation",
    VObj [("EnvelopeStatus", VArr [bare_status])])].

(** A world that serves two envelopes with different documents; the
    parser knows the documents ["<a/>"], ["<b/>"], ["<bare/>"] and
    ["<break/>"]. *)
Definition two_orders : Remote :=
  {| parseStringAsync := fun xml =>
       if String.eqb xml "<a/>"
       then Ok (Sample.envelope "Completed" [Sample.field "Sales order" "SO-1/A"])
       else if String.eqb xml "<b/>"
       then Ok (Sample.envelope "Completed" [Sample.field "Sales order" "SO-1_A"])
       else if String.eqb xml "<bare/>" then Ok bare
       else if String.eqb xml "<break/>"
       then Ok (Sample.envelope "Completed" [Sample.field "Sales order" "7/break"])
       else Err XmlError;
     checkToken := Ok tt;
     accountId := "acct-1";
     getDocument := fun _ _ => Ok "%PDF-1.4 combined";
     rp := fun _ => Ok tt |}.

(** A world whose token provider fails with an API error other than a
    missing consent. *)
Definition remote_api_problem : Remote :=
  {| parseStringAsync := fun _ => Err XmlError;
     checkToken :=
       Err (ApiError (Some {| status := "401";
                              body := Some {| error := Some "invalid_grant";
                                              json_text := "{...}" |} |}));
     accountId := "acct-1";
     getDocument := fun _ _ => Err HttpError;
     rp := fun _ => Ok tt |}.

(** A world whose token provider cannot be reached. *)
Definition remote_offline : Remote :=
  {| parseStringAsync := fun _ => Err XmlError;
     checkToken := Err (ApiError None);
     accountId := "acct-1";
     getDocument := fun _ _ => Err HttpError;
     rp := fun _ => Ok tt |}.

(** A world whose document store serves each envelope its own document. *)
Definition by_envelope : Remote :=
  {| parseStringAsync := fun _ => Err XmlError;
     checkToken := Ok tt;
     accountId := "acct-1";
     getDocument := fun _ envelopeId =>
       Ok ("documents of " +:+ match envelopeId with VStr s => s | _ => "" end);
     rp := fun _ => Ok tt |}.

(** A message whose acknowledgement raises. *)
Definition unackable (xml : string) : Message :=
  {| id := "m-3"; json := Ok (Some {| test := None; xml := xml |});
     ack_raises := Some (JsError "ack failed") |}.

(** A harness message. *)
Definition test_message (v : string) : Message :=
  {| id := "t-1"; json := Ok (Some {| test := Some v; xml := "" |});
     ack_raises := None |}.

End Sample2.

(** ** Proof automation *)

(** Reduction of a run without unfolding the file-system map. *)
Ltac msimpl :=
  cbn [out fs evs app negb andb orb count is_ack is_nack is_fulfillment
       is_actuation is_console Nat.add rbind].

Ltac run_M :=
  unfold saveDoc, dsJwtAuth_checkToken, envelopesApi_getDocument,
    console_error, console_log;
  unfold try_catch, bind, lift, emit, ret, throw, fse_exists, fse_mkdir,
    fse_writeFile, parent_error;
  msimpl.

(** The cases of a run of [saveDoc]: the two remote answers, the shape of
    the order number, the output directory and the directory that holds
    it, the target, the break test. *)
Ltac saveDoc_cases cfg R eid ord s :=
  run_M;
  destruct (checkToken R) as [[]|]; msimpl;
  [destruct (getDocument R (accountId R) eid); msimpl;
   [destruct (sanitizedOrderNumber ord) as [san|]; msimpl;
    [destruct (s !! outputDir cfg) eqn:?Hdir; msimpl;
     [|destruct (s !! dirname (outputDir cfg)) as [[?|]|] eqn:?Hpar; msimpl;
       try (match goal with H : s !! outputDir cfg = None |- _ => rewrite H end;
            msimpl)];
     try (match goal with
          | |- context [?m !! dirname (path_join ?d ?f)] =>
              destruct (m !! dirname (path_join d f)) as [[?|]|] eqn:?Hwp; msimpl
          end);
     try (match goal with
          | |- context [?m !! path_join ?d ?f] =>
              destruct (m !! path_join d f) as [[?|]|] eqn:?Hfile; msimpl
          end);
     try (destruct (enableBreakTest cfg); msimpl;
          try (destruct (toStr ord) as [shown|]; msimpl;
               try (destruct (includes "/break" shown); msimpl)))
    |]|]|].

(** ** The sample notification, end to end *)

Example sample_order_handled :
  evs (messageHandler Sample.cfg Sample.remote (Sample.message "<order/>") Sample.disk)
  = [ConsoleLog (MsgReceived Sample.order_notification);
     CheckToken; GetDocument "acct-1" (VStr "4f1c-01");
     LifxPut {| lifx_url_selector := "all"; lifx_bearer := Some "lifx-secret";
                lifx_color := VStr "green" |};
     Ack].
Proof. vm_compute. reflexivity. Qed.

Example sample_order_stored :
  fs (messageHandler Sample.cfg Sample.remote (Sample.message "<order/>") Sample.disk)
    !! "/srv/worker/output/order_SO_123_A.pdf"
  = Some (File "%PDF-1.4 combined").
Proof. vm_compute. reflexivity. Qed.

Example sample_test_files :
  testFile 19 = "test19.txt" /\ test_path Sample.cfg 1 = "test_messages/test1.txt".
Proof. vm_compute. auto. Qed.

Example sample_join :
  toStr (VArr [VStr "a"; VNull; VArr [VStr "b"; VStr "c"]]) = Ok "a,,b,c".
Proof. reflexivity. Qed.

(** ** Strings and paths *)

Lemma app_cons (a : Ascii.ascii) (s t : string) :
  String a s +:+ t = String a (s +:+ t).
Proof. reflexivity. Qed.

Lemma length_app (s t : string) :
  String.length (s +:+ t) = String.length s + String.length t.
Proof.
  induction s as [|a s IH]; [reflexivity|].
  rewrite app_cons. simpl. by rewrite IH.
Qed.

Lemma app_inj_r (t s1 s2 : string) : s1 +:+ t = s2 +:+ t -> s1 = s2.
Proof.
  revert s2. induction s1 as [|a s1 IH]; intros [|b s2] H.
  - reflexivity.
  - apply (f_equal String.length) in H. rewrite !length_app in H.
    simpl in H. lia.
  - apply (f_equal String.length) in H. rewrite !length_app in H.
    simpl in H. lia.
  - rewrite !app_cons in H. injection H as -> H. f_equal. by apply IH.
Qed.

Lemma path_join_inj (dir a b : string) :
  path_join dir a = path_join dir b -> a = b.
Proof.
  unfold path_join. intros H.
  apply (inj (String.app dir)) in H. by apply (inj (String.app "/")) in H.
Qed.

Lemma path_join_ne (dir a : string) : path_join dir a <> dir.
Proof.
  unfold path_join. intros H. apply (f_equal String.length) in H.
  rewrite !length_app in H. simpl in H. lia.
Qed.

Lemma testFile_inj (i j : nat) : testFile i = testFile j -> i = j.
Proof.
  unfold testFile. intros H.
  apply (inj (String.app "test")) in H. apply app_inj_r in H.
  by apply (inj pretty) in H.
Qed.

Lemma test_path_inj (cfg : Config) (i j : nat) :
  test_path cfg i = test_path cfg j -> i = j.
Proof. intros H. apply testFile_inj. by apply path_join_inj in H. Qed.

Lemma test_path_ne_dir (cfg : Config) (i : nat) :
  test_path cfg i <> testOutputDir cfg.
Proof. apply path_join_ne. Qed.

(** ** Paths and the directories that hold them *)

Lemma includes_slash_cons (c : Ascii.ascii) (r : string) :
  includes "/" (String c r) = Ascii.eqb c "/" || includes "/" r.
Proof.
  cbn [includes String.prefix].
  destruct (Ascii.ascii_dec "/" c) as [<-|Hne]; [by destruct r|].
  destruct (Ascii.eqb_spec c "/") as [->|_]; [by destruct Hne|done].
Qed.

Lemma no_slash_app (a b : string) :
  includes "/" a = false -> includes "/" b = false -> includes "/" (a +:+ b) = false.
Proof.
  intros Ha Hb. induction a as [|c a IH]; [done|].
  rewrite app_cons, includes_slash_cons. rewrite includes_slash_cons in Ha.
  apply orb_false_elim in Ha as [-> Ha]. by rewrite IH.
Qed.

Lemma no_slash_before (f : string) :
  includes "/" f = false -> before_last_slash f = None.
Proof.
  induction f as [|c f IH]; [done|]. rewrite includes_slash_cons.
  intros [Hc Hf]%orb_false_elim. cbn [before_last_slash]. by rewrite IH, Hc.
Qed.

Lemma before_last_slash_join (dir f : string) :
  includes "/" f = false -> before_last_slash (path_join dir f) = Some dir.
Proof.
  intros Hf. unfold path_join. induction dir as [|c dir IH].
  - change ("" +:+ "/" +:+ f) with (String "/" f). cbn [before_last_slash].
    by rewrite (no_slash_before f Hf).
  - rewrite app_cons. cbn [before_last_slash]. by rewrite IH.
Qed.

(** The directory that holds [dir/name] is [dir]. *)
Lemma dirname_join (dir f : string) :
  dir <> "" -> includes "/" f = false -> dirname (path_join dir f) = dir.
Proof.
  intros Hd Hf. unfold dirname. rewrite before_last_slash_join by done.
  by destruct dir.
Qed.

Lemma no_slash_pretty_N_go (x : N) (s : string) :
  includes "/" s = false -> includes "/" (pretty_N_go x s) = false.
Proof.
  revert s. induction (N.lt_wf_0 x) as [x _ IH]; intros s Hs.
  assert (x = 0 \/ 0 < x)%N as [->|Hx] by lia; [by rewrite pretty_N_go_0|].
  rewrite pretty_N_go_step by done. apply IH; [by apply N.div_lt|].
  rewrite includes_slash_cons, Hs, orb_false_r.
  unfold pretty_N_char. by repeat case_match.
Qed.

Lemma no_slash_pretty (i : nat) : includes "/" (pretty i) = false.
Proof.
  unfold pretty, pretty_nat, pretty, pretty_N.
  case_decide; [done|]. by apply no_slash_pretty_N_go.
Qed.

Lemma no_slash_testFile (i : nat) : includes "/" (testFile i) = false.
Proof.
  unfold testFile. apply no_slash_app; [done|].
  apply no_slash_app; [apply no_slash_pretty|done].
Qed.

Lemma test_path_parent (cfg : Config) (i : nat) :
  testOutputDir cfg <> "" -> dirname (test_path cfg i) = testOutputDir cfg.
Proof. intros Hd. apply dirname_join; [done|apply no_slash_testFile]. Qed.

Lemma no_slash_sanitized (K : string) : includes "/" (replace_nonword K) = false.
Proof.
  induction K as [|a K IH]; [done|].
  cbn [replace_nonword]. rewrite includes_slash_cons, IH, orb_false_r.
  destruct (is_word a) eqn:E; [|done].
  destruct (Ascii.eqb_spec a "/") as [->|_]; [done|done].
Qed.

Lemma artifact_parent (cfg : Config) (K : string) :
  outputDir cfg <> "" -> includes "/" (outputFilePefix cfg) = false ->
  dirname (artifact_path cfg K) = outputDir cfg.
Proof.
  intros Hd Hp. apply dirname_join; [done|]. unfold fileName.
  apply no_slash_app; [done|]. apply no_slash_app; [apply no_slash_sanitized|done].
Qed.

(** ** Counting events *)

Lemma count_app (p : event -> bool) (l1 l2 : list event) :
  count p (l1 ++ l2) = count p l1 + count p l2.
Proof. induction l1 as [|e l1 IH]; simpl; [done|]. rewrite IH. lia. Qed.

(** ** C5: sanitizing the order number *)

(** C5. Sanitization is a total function on strings: for every order
    number it yields a string of the same length in which every word
    character is kept and every other character is ['_'], so that only
    word characters remain; and ["SO-123/A"] becomes ["SO_123_A"]. *)
Theorem sanitize_replaces_nonword (s : string) :
  sanitizedOrderNumber (VStr s) = Ok (replace_nonword s)
  /\ String.length (replace_nonword s) = String.length s
  /\ (forall i c, String.get i s = Some c ->
        String.get i (replace_nonword s) = Some (if is_word c then c else "_"%char))
  /\ (forall i c, String.get i (replace_nonword s) = Some c -> is_word c = true)
  /\ sanitizedOrderNumber (VStr "SO-123/A") = Ok "SO_123_A".
Proof.
  split; [reflexivity|]. split; [|split; [|split; [|reflexivity]]].
  - induction s as [|a s IH]; simpl; congruence.
  - induction s as [|a s IH]; intros i c H; [by destruct i|].
    destruct i as [|i]; simpl in *.
    + by injection H as ->.
    + by apply IH.
  - induction s as [|a s IH]; intros i c H; [by destruct i|].
    destruct i as [|i]; simpl in *.
    + injection H as <-. destruct (is_word a) eqn:E; [done|reflexivity].
    + by apply (IH i).
Qed.

Lemma sanitize_replaces_nonword_witness :
  String.get 2 "SO-123/A" = Some "-"%char
  /\ String.get 2 (replace_nonword "SO-123/A") = Some "_"%char.
Proof.
  split; [reflexivity|].
  destruct (sanitize_replaces_nonword "SO-123/A") as (_ & _ & Hget & _).
  apply (Hget 2 "-"%char eq_refl).
Defined.

(** ** C9: the custom fields *)

Section Find.

Context (p : jsval -> result bool).

Lemma find_in_none (l : list jsval) :
  Forall (fun x => p x = Ok false) l -> find_in p l = Ok VUndefined.
Proof. induction 1 as [|x l Hx _ IH]; simpl; [done|]. by rewrite Hx. Qed.

Lemma find_in_first (pre post : list jsval) (f : jsval) :
  Forall (fun x => p x = Ok false) pre -> p f = Ok true ->
  find_in p (pre ++ f :: post)%list = Ok f.
Proof.
  intros Hpre Hf. induction Hpre as [|x l Hx _ IH]; simpl.
  - by rewrite Hf.
  - by rewrite Hx.
Qed.

End Find.

Lemma other_field_name_is (key : string) (f : jsval) :
  other_field key f -> name_is key f = Ok false.
Proof.
  intros (name & Hn & Hk). unfold name_is, field_name in *.
  destruct (prop f "Name") as [a|]; simpl in *; [|done].
  destruct (first a); simpl in *; congruence.
Qed.

Lemma matching_field_name_is (key : string) (f : jsval) :
  matching_field key f -> name_is key f = Ok true /\ truthy f = true.
Proof.
  intros (name & Hn & Hk). unfold name_is, field_name in *. split.
  - destruct (prop f "Name") as [a|]; simpl in *; [|done].
    destruct (first a); simpl in *; congruence.
  - destruct f as [| |s|l|props]; try done.
Qed.

Lemma lookup_none (key : string) (es : jsval) (fields : list jsval) :
  customFields_of es = Ok (VArr fields) ->
  Forall (other_field key) fields ->
  (customFields <~ customFields_of es ;;
   found <~ find customFields (name_is key) ;;
   if truthy found then field_value found else Ok VNull) = Ok VNull.
Proof.
  intros -> Hall. simpl. rewrite find_in_none; [done|].
  eapply Forall_impl; [exact Hall|]. apply other_field_name_is.
Qed.

Lemma lookup_first (key : string) (es : jsval) (pre post : list jsval) (f : jsval) :
  customFields_of es = Ok (VArr (pre ++ f :: post)%list) ->
  Forall (other_field key) pre -> matching_field key f ->
  (customFields <~ customFields_of es ;;
   found <~ find customFields (name_is key) ;;
   if truthy found then field_value found else Ok VNull) = field_value f.
Proof.
  intros -> Hpre [Hf Ht]%matching_field_name_is. simpl.
  rewrite find_in_first; [simpl; by rewrite Ht| |done].
  eapply Forall_impl; [exact Hpre|]. apply other_field_name_is.
Qed.

(** X20. On an envelope status that carries a list of custom fields,
    [getOrderNumber] and [getLightColor] look the configured field name up
    in that ordered list: when no field has the name the result is
    [null]; otherwise it is [Value[0]] of the first field that has it,
    whatever follows it, so that a name that occurs twice is resolved by
    its first occurrence. *)
Theorem custom_field_first_match (cfg : Config) (es : jsval) (fields : list jsval) :
  customFields_of es = Ok (VArr fields) ->
  (Forall (other_field (envelopeCustomField cfg)) fields ->
   getOrderNumber cfg es = Ok VNull)
  /\ (forall (pre : list jsval) f post, fields = (pre ++ f :: post)%list ->
        Forall (other_field (envelopeCustomField cfg)) pre ->
        matching_field (envelopeCustomField cfg) f ->
        getOrderNumber cfg es = field_value f)
  /\ (Forall (other_field (envelopeColorCustomField cfg)) fields ->
      getLightColor cfg es = Ok VNull)
  /\ (forall (pre : list jsval) f post, fields = (pre ++ f :: post)%list ->
        Forall (other_field (envelopeColorCustomField cfg)) pre ->
        matching_field (envelopeColorCustomField cfg) f ->
        getLightColor cfg es = field_value f).
Proof.
  intros Hcf. repeat split.
  - intros H. by apply (lookup_none _ es fields).
  - intros pre f post -> Hpre Hf. by apply (lookup_first _ es pre post f).
  - intros H. by apply (lookup_none _ es fields).
  - intros pre f post -> Hpre Hf. by apply (lookup_first _ es pre post f).
Qed.

Lemma custom_field_first_match_witness :
  customFields_of (Sample.envelopeStatus "Completed" Sample.twice)
  = Ok (VArr Sample.twice)
  /\ getOrderNumber Sample.cfg (Sample.envelopeStatus "Completed" Sample.twice)
     = Ok (VStr "A")
  /\ getLightColor Sample.cfg (Sample.envelopeStatus "Completed" Sample.twice)
     = Ok VNull.
Proof.
  pose proof (custom_field_first_match Sample.cfg
                (Sample.envelopeStatus "Completed" Sample.twice) Sample.twice
                eq_refl) as (_ & Horder & Hnone & _).
  split; [reflexivity|]. split.
  - apply (Horder [Sample.field "Region" "EU"] (Sample.field "Sales order" "A")
             [Sample.field "Sales order" "B"] eq_refl).
    + repeat constructor. by exists (VStr "Region").
    + by exists (VStr "Sales order").
  - apply Hnone. repeat constructor.
    + by exists (VStr "Region").
    + by exists (VStr "Sales order").
    + by exists (VStr "Sales order").
Defined.

(** C9. The code fails the claim on the envelope status of an envelope
    without custom fields. No field matches, yet neither extractor
    returns [null]: the empty [CustomFields] element is read as an empty
    string, its [CustomField] member is [undefined], and the call of
    [find] on it raises a [TypeError]; the extractors raise it as well
    when the [CustomFields] member is missing altogether. *)
Theorem extractors_raise_without_field_list :
  envelopeStatus_of Sample2.bare = Ok Sample2.bare_status
  /\ customFields_of Sample2.bare_status = Ok VUndefined
  /\ getOrderNumber Sample.cfg Sample2.bare_status = Err TypeError
  /\ getLightColor Sample.cfg Sample2.bare_status = Err TypeError
  /\ customFields_of (VObj [("Status", VArr [VStr "Completed"])]) = Err TypeError
  /\ getOrderNumber Sample.cfg (VObj [("Status", VArr [VStr "Completed"])])
     = Err TypeError
  /\ getLightColor Sample.cfg (VObj [("Status", VArr [VStr "Completed"])])
     = Err TypeError.
Proof. repeat split; vm_compute; reflexivity. Qed.
(** ** [saveDoc] *)

(** [saveDoc] returns or raises its own error; it never ends the process. *)
Lemma saveDoc_out (cfg : Config) (R : Remote) (eid ord : jsval) (s : files) :
  out (saveDoc cfg R eid ord s) = Ret tt
  \/ out (saveDoc cfg R eid ord s) = Throw (JsError "saveDoc error").
Proof. saveDoc_cases cfg R eid ord s; auto. Qed.

(** [saveDoc] prints and calls the token provider and the document store;
    it neither acknowledges the message nor drives the light. *)
Lemma saveDoc_quiet (cfg : Config) (R : Remote) (eid ord : jsval) (s : files)
    (p : event -> bool) :
  (forall e, p e = true -> is_fulfillment e = false /\ is_console e = false) ->
  count p (evs (saveDoc cfg R eid ord s)) = 0.
Proof.
  intros Hp.
  assert (Hc : forall m, p (ConsoleError m) = false).
  { intros m. destruct (p (ConsoleError m)) eqn:E; [|done]. by apply Hp in E as [_ ?]. }
  assert (Ht : p CheckToken = false).
  { destruct (p CheckToken) eqn:E; [|done]. by apply Hp in E as [? _]. }
  assert (Hg : forall a b, p (GetDocument a b) = false).
  { intros a b. destruct (p (GetDocument a b)) eqn:E; [|done]. by apply Hp in E as [? _]. }
  saveDoc_cases cfg R eid ord s; by rewrite ?Ht, ?Hg, ?Hc.
Qed.

(** ** C4: the stored artifact *)

(** What a run of [saveDoc] does when both remote calls succeed, the
    output directory can be used and the target is not a directory. *)
Lemma saveDoc_run (cfg : Config) (R : Remote) (eid : jsval) (K doc : string)
    (s : files) :
  checkToken R = Ok tt ->
  getDocument R (accountId R) eid = Ok doc ->
  output_ready cfg s ->
  s !! artifact_path cfg K <> Some Dir ->
  saveDoc cfg R eid (VStr K) s =
  mkRes
    (if enableBreakTest cfg && includes "/break" K
     then Throw (JsError "saveDoc error") else Ret tt)
    (<[artifact_path cfg K := File doc]>
       match s !! outputDir cfg with
       | Some _ => s
       | None => <[outputDir cfg := Dir]> s
       end)
    ([CheckToken; GetDocument (accountId R) eid] ++
     if enableBreakTest cfg && includes "/break" K
     then [ConsoleError (MsgSaveDocError eid (VStr K));
           ConsoleError (MsgException (JsError "Break test"))]
     else [])%list.
Proof.
  intros Htok Hdoc (Hd & Hp & Huse) Hfile.
  pose proof (artifact_parent cfg K Hd Hp) as Hpar. unfold artifact_path in *.
  assert (Hne : outputDir cfg <> path_join (outputDir cfg) (fileName cfg (replace_nonword K)))
    by (symmetry; apply path_join_ne).
  run_M. rewrite Htok. msimpl. rewrite Hdoc.
  change (sanitizedOrderNumber (VStr K)) with (Ok (replace_nonword K)).
  change (toStr (VStr K)) with (@Ok string K). msimpl. rewrite !Hpar.
  destruct Huse as [Hdir|[Hdir Hup]]; rewrite Hdir; msimpl.
  - rewrite Hdir.
    destruct (s !! path_join _ _) as [[c|]|] eqn:Hfl; [|done|]; msimpl.
    all: by destruct (enableBreakTest cfg), (includes "/break" K).
  - rewrite Hup, Hdir. msimpl. rewrite lookup_insert_eq, lookup_insert_ne by done.
    destruct (s !! path_join _ _) as [[c|]|] eqn:Hfl; [|done|]; msimpl.
    all: by destruct (enableBreakTest cfg), (includes "/break" K).
Qed.

(** Once [saveDoc] has run, the output directory is there and ready. *)
Lemma output_ready_after (cfg : Config) (s : files) (p : string) (n : node) :
  output_ready cfg s -> p <> outputDir cfg ->
  output_ready cfg
    (<[p := n]> match s !! outputDir cfg with
                | Some _ => s
                | None => <[outputDir cfg := Dir]> s
                end).
Proof.
  intros (Hd & Hp & Huse) Hne. split; [done|]. split; [done|]. left.
  rewrite lookup_insert_ne by done.
  destruct Huse as [Hdir|[Hdir _]]; rewrite Hdir; [done|apply lookup_insert_eq].
Qed.

Lemma sample_disk_output : output_ready Sample.cfg Sample.disk.
Proof.
  split; [discriminate|]. split; [reflexivity|]. right.
  split; vm_compute; reflexivity.
Qed.



(** ** The message handler *)

Lemma rbind_Ok {A B} (r : result A) (f : A -> result B) (b : B) :
  rbind r f = Ok b -> exists a, r = Ok a /\ f a = Ok b.
Proof. destruct r as [a|e]; cbn [rbind]; [eauto|done]. Qed.

(** Step 1 compares the status with ['Completed'] before [process] does:
    once step 1 has succeeded the comparison does not raise. *)
Lemma step1_status (cfg : Config) (msg : jsval) (n : notification) :
  process_step1 cfg msg = Ok n ->
  exists c, loose_eq (envStatus n) "Completed" = Ok c.
Proof.
  unfold process_step1. intros H.
  do 3 (apply rbind_Ok in H as (? & _ & H)).
  apply rbind_Ok in H as (status & _ & H).
  apply rbind_Ok in H as (co & Hco & H).
  apply rbind_Ok in Hco as (c & Hc & _).
  do 6 (apply rbind_Ok in H as (? & _ & H)).
  injection H as <-. by exists c.
Qed.

Lemma process_real (cfg : Config) (R : Remote) (t : option string) (xml : string)
    (s : files) :
  truthy_setting t = false ->
  process cfg R t xml s =
  match decode cfg R xml with
  | Err e => mkRes (Throw e) s []
  | Ok n =>
      if eligible n then
        match saveDoc cfg R (envelopeId n) (orderNumber n) s with
        | mkRes (Ret _) s1 e1 =>
            mkRes (Ret tt) s1
              (ConsoleLog (MsgReceived n)
               :: e1 ++ (if lifx_enabled cfg (lightColor n)
                         then [LifxPut (lifx_request cfg (lightColor n))]
                         else []))%list
        | mkRes (Throw _) s1 e1 =>
            mkRes (Throw (JsError "job process#saveDoc error")) s1
              (ConsoleLog (MsgReceived n) :: e1)
        | mkRes (Exit c) s1 e1 =>
            mkRes (Exit c) s1 (ConsoleLog (MsgReceived n) :: e1)
        end
      else
        mkRes (Ret tt) s
          (ConsoleLog (MsgReceived n) ::
           if debug cfg then
             [ConsoleLog match loose_eq (envStatus n) "Completed" with
                         | Ok true => MsgIgnoredNoField (envelopeCustomField cfg)
                         | _ => MsgIgnoredStatus (envStatus n)
                         end]
           else [])
  end.
Proof.
  intros Ht. unfold process, decode, eligible. rewrite Ht.
  unfold console_log. unfold try_catch, bind, lift, ret, throw, emit.
  destruct (parseStringAsync R xml) as [msg|e]; msimpl; [|done].
  destruct (process_step1 cfg msg) as [n|e] eqn:Hstep; msimpl; [|done].
  destruct (received_line n) as [line|e]; msimpl; [|done].
  destruct (step1_status cfg msg n Hstep) as [c ->]. msimpl.
  destruct c; msimpl.
  - destruct (truthy (orderNumber n)); msimpl.
    + destruct (saveDoc cfg R (envelopeId n) (orderNumber n) s) as [[[]|e|c] f ev].
      all: msimpl; rewrite ?app_nil_r; try done.
      destruct (lifx_enabled cfg (lightColor n)); msimpl; [|done].
      destruct (rp R (lifx_request cfg (lightColor n))) as [[]|e]; msimpl; done.
    + destruct (debug cfg); done.
  - destruct (debug cfg); done.
Qed.

Lemma messageHandler_run (cfg : Config) (R : Remote) (message : Message) (s : files) :
  messageHandler cfg R message s =
  match
    match json message with
    | Ok (Some b) => process cfg R (test b) (xml b) s
    | _ => mkRes (Ret tt) s [ConsoleLog (MsgBadBody (id message))]
    end
  with
  | mkRes (Ret _) s1 e1 =>
      mkRes (Ret tt) s1 (debug_events cfg message ++ e1 ++ ack_events message)%list
  | mkRes (Throw e) s1 e1 => mkRes (Throw e) s1 (debug_events cfg message ++ e1)%list
  | mkRes (Exit c) s1 e1 => mkRes (Exit c) s1 (debug_events cfg message ++ e1)%list
  end.
Proof.
  unfold messageHandler, debug_events, ack_events, message_ack.
  unfold console_log, console_error. unfold try_catch, bind, emit, ret, throw.
  destruct (debug cfg); msimpl.
  all: destruct (json message) as [[b|]|e]; msimpl.
  all: try (destruct (process cfg R (test b) (xml b) s) as [[[]|e|c] f ev]; msimpl).
  all: destruct (ack_raises message); msimpl; rewrite ?app_nil_r; done.
Qed.

Lemma count_ack_events (message : Message) :
  acks (ack_events message) = 1 /\ nacks (ack_events message) = 0
  /\ count is_fulfillment (ack_events message) = 0
  /\ count is_actuation (ack_events message) = 0.
Proof. unfold ack_events, acks, nacks. by destruct (ack_raises message). Qed.

Lemma count_debug_events (cfg : Config) (message : Message) (p : event -> bool) :
  (forall m, p (ConsoleLog m) = false) ->
  count p (debug_events cfg message) = 0.
Proof. intros H. unfold debug_events. destruct (debug cfg); msimpl; by rewrite ?H. Qed.

(** What an eligible message whose body is read makes the handler do, by
    the result of [saveDoc]. *)
Lemma messageHandler_eligible (cfg : Config) (R : Remote) (message : Message)
    (b : Body) (n : notification) (s : files) :
  json message = Ok (Some b) ->
  truthy_setting (test b) = false ->
  decode cfg R (xml b) = Ok n ->
  eligible n = true ->
  messageHandler cfg R message s =
  match saveDoc cfg R (envelopeId n) (orderNumber n) s with
  | mkRes (Ret _) s1 e1 =>
      mkRes (Ret tt) s1
        (debug_events cfg message ++
         (ConsoleLog (MsgReceived n)
          :: e1 ++ (if lifx_enabled cfg (lightColor n)
                    then [LifxPut (lifx_request cfg (lightColor n))]
                    else [])) ++ ack_events message)%list
  | mkRes (Throw _) s1 e1 =>
      mkRes (Throw (JsError "job process#saveDoc error")) s1
        (debug_events cfg message ++ ConsoleLog (MsgReceived n) :: e1)%list
  | mkRes (Exit c) s1 e1 =>
      mkRes (Exit c) s1 (debug_events cfg message ++ ConsoleLog (MsgReceived n) :: e1)%list
  end.
Proof.
  intros Hj Ht Hd He. rewrite messageHandler_run, Hj, process_real, Hd, He by done.
  by destruct (saveDoc cfg R (envelopeId n) (orderNumber n) s) as [[[]|e|c] f ev].
Qed.

(** ** C1: a failed fulfilment *)

(** C1, as the code has it. When [saveDoc] raises for an eligible message,
    [process] rejects with its own error, the handler's promise rejects
    with it before [message.ack()] is reached, and the message is neither
    acked nor nacked: redelivery is left to the broker's acknowledgement
    deadline. *)
Theorem saveDoc_failure_leaves_message_unacked (cfg : Config) (R : Remote)
    (message : Message) (b : Body) (n : notification) (e : exn) (s : files) :
  json message = Ok (Some b) ->
  truthy_setting (test b) = false ->
  decode cfg R (xml b) = Ok n ->
  eligible n = true ->
  out (saveDoc cfg R (envelopeId n) (orderNumber n) s) = Throw e ->
  out (messageHandler cfg R message s) = Throw (JsError "job process#saveDoc error")
  /\ acks (evs (messageHandler cfg R message s)) = 0
  /\ nacks (evs (messageHandler cfg R message s)) = 0.
Proof.
  intros Hj Ht Hd He Hs.
  rewrite (messageHandler_eligible cfg R message b n s) by done.
  pose proof (saveDoc_quiet cfg R (envelopeId n) (orderNumber n) s is_ack) as Ha.
  pose proof (saveDoc_quiet cfg R (envelopeId n) (orderNumber n) s is_nack) as Hn.
  destruct (saveDoc cfg R (envelopeId n) (orderNumber n) s) as [o f ev].
  cbn [out evs] in *. subst o. msimpl. unfold acks, nacks.
  rewrite !count_app, !count_debug_events by done. msimpl.
  rewrite Ha, Hn by (by intros []). done.
Qed.

Lemma saveDoc_failure_leaves_message_unacked_witness :
  out (saveDoc Sample.cfg Sample.remote_down (VStr "4f1c-01") (VStr "SO-123/A") ∅)
  = Throw (JsError "saveDoc error")
  /\ out (messageHandler Sample.cfg Sample.remote_down (Sample.message "<order/>") ∅)
     = Throw (JsError "job process#saveDoc error")
  /\ acks (evs (messageHandler Sample.cfg Sample.remote_down
                  (Sample.message "<order/>") ∅)) = 0
  /\ nacks (evs (messageHandler Sample.cfg Sample.remote_down
                   (Sample.message "<order/>") ∅)) = 0.
Proof.
  split; [reflexivity|].
  eapply (saveDoc_failure_leaves_message_unacked Sample.cfg Sample.remote_down
            (Sample.message "<order/>")); reflexivity.
Defined.

(** C1 as stated fails: the document store is down for an eligible
    message, [saveDoc] raises, and the message is not nacked once but
    never. *)
Lemma nacked_once_counterexample :
  (n <~ decode Sample.cfg Sample.remote_down "<order/>" ;; Ok (eligible n)) = Ok true
  /\ out (saveDoc Sample.cfg Sample.remote_down (VStr "4f1c-01") (VStr "SO-123/A") ∅)
     = Throw (JsError "saveDoc error")
  /\ nacks (evs (messageHandler Sample.cfg Sample.remote_down
                   (Sample.message "<order/>") ∅)) = 0
  /\ nacks (evs (messageHandler Sample.cfg Sample.remote_down
                   (Sample.message "<order/>") ∅)) <> 1.
Proof. vm_compute. repeat split; discriminate. Qed.

(** ** C2: ineligible notifications *)

(** X21. A payload that [process] decodes (the parser, step 1 and the
    notification line succeed, so the envelope status carries a list of
    custom fields) but whose status is not [Completed], or whose
    order-number field is absent or empty (the extracted value is falsy),
    is dropped: no token check, no document fetch, no actuation, the file
    system is untouched, the handler returns and the message is acked once
    and not nacked. *)
Theorem ineligible_is_acked_untouched (cfg : Config) (R : Remote)
    (message : Message) (b : Body) (n : notification) (s : files) :
  json message = Ok (Some b) ->
  truthy_setting (test b) = false ->
  decode cfg R (xml b) = Ok n ->
  loose_eq (envStatus n) "Completed" = Ok false \/ truthy (orderNumber n) = false ->
  out (messageHandler cfg R message s) = Ret tt
  /\ fs (messageHandler cfg R message s) = s
  /\ count is_fulfillment (evs (messageHandler cfg R message s)) = 0
  /\ count is_actuation (evs (messageHandler cfg R message s)) = 0
  /\ acks (evs (messageHandler cfg R message s)) = 1
  /\ nacks (evs (messageHandler cfg R message s)) = 0.
Proof.
  intros Hj Ht Hd Hi. rewrite messageHandler_run, Hj.
  rewrite process_real, Hd by done.
  assert (He : eligible n = false).
  { unfold eligible. destruct Hi as [-> | ->]; [done|].
    by destruct (loose_eq _ _) as [[]|]. }
  rewrite He. msimpl.
  destruct (count_ack_events message) as (Ha & Hn & Hf & Hl).
  repeat split; unfold acks, nacks in *; rewrite !count_app, ?Ha, ?Hn, ?Hf, ?Hl.
  all: rewrite count_debug_events by done.
  all: destruct (debug cfg); msimpl; lia.
Qed.

Lemma ineligible_is_acked_untouched_witness :
  decode Sample.cfg Sample.remote "<sent/>"
  = Ok {| envelopeId := VStr "4f1c-01"; created := VStr "2019-03-01T10:00:00";
          envStatus := VStr "Sent"; completed := None;
          subject := VStr "Please sign"; senderName := VStr "Pat Sender";
          senderEmail := VStr "pat@example.com";
          orderNumber := VStr "SO-123/A"; lightColor := VNull |}
  /\ out (messageHandler Sample.cfg Sample.remote (Sample.message "<sent/>") ∅) = Ret tt
  /\ fs (messageHandler Sample.cfg Sample.remote (Sample.message "<sent/>") ∅) = ∅
  /\ acks (evs (messageHandler Sample.cfg Sample.remote (Sample.message "<sent/>") ∅)) = 1.
Proof.
  split; [reflexivity|].
  destruct (ineligible_is_acked_untouched Sample.cfg Sample.remote
              (Sample.message "<sent/>") {| test := Some ""; xml := "<sent/>" |}
              _ ∅ eq_refl eq_refl eq_refl (or_introl eq_refl))
    as (Ho & Hf & _ & _ & Ha & _).
  auto.
Defined.


(** C2. The code fails the claim on a well-formed notification of a sent
    envelope that has no custom fields: the payload parses, its status is
    [Sent], the list of custom fields of its envelope status is missing,
    and [getOrderNumber] raises a [TypeError] in step 1, before the status
    is looked at. Nothing is fetched or written and no light is set, but
    the handler rejects instead of returning and the message is never
    acked. *)
Theorem ineligible_without_fields_is_not_acked :
  parseStringAsync Sample2.two_orders "<bare/>" = Ok Sample2.bare
  /\ envelopeStatus_of Sample2.bare = Ok Sample2.bare_status
  /\ (a <~ prop Sample2.bare_status "Status" ;; first a) = Ok (VStr "Sent")
  /\ customFields_of Sample2.bare_status = Ok VUndefined
  /\ getOrderNumber Sample.cfg Sample2.bare_status = Err TypeError
  /\ decode Sample.cfg Sample2.two_orders "<bare/>" = Err TypeError
  /\ out (messageHandler Sample.cfg Sample2.two_orders (Sample.message "<bare/>")
            Sample.disk) = Throw TypeError
  /\ fs (messageHandler Sample.cfg Sample2.two_orders (Sample.message "<bare/>")
           Sample.disk) = Sample.disk
  /\ count is_fulfillment
       (evs (messageHandler Sample.cfg Sample2.two_orders (Sample.message "<bare/>")
               Sample.disk)) = 0
  /\ count is_actuation
       (evs (messageHandler Sample.cfg Sample2.two_orders (Sample.message "<bare/>")
               Sample.disk)) = 0
  /\ acks (evs (messageHandler Sample.cfg Sample2.two_orders (Sample.message "<bare/>")
                  Sample.disk)) = 0
  /\ nacks (evs (messageHandler Sample.cfg Sample2.two_orders (Sample.message "<bare/>")
                   Sample.disk)) = 0.
Proof. repeat split; vm_compute; reflexivity. Qed.
(** ** C3: payloads that cannot be decoded *)




(** ** C7 and C10: the light *)

Lemma lifx_enabled_spec (cfg : Config) (c : jsval) :
  lifx_enabled cfg c = true <->
  truthy c = true
  /\ exists t, lifxAccessToken cfg = Some t /\ t <> "" /\ t <> "{LIFX_ACCESS_TOKEN}".
Proof.
  unfold lifx_enabled, truthy_setting.
  destruct (truthy c); cbn [andb]; [|by split; [|intros []]].
  destruct (lifxAccessToken cfg) as [t|]; cbn [andb].
  - split.
    + intros [Hne Hph]%andb_true_iff. split; [done|]. exists t. split; [done|].
      apply negb_true_iff, String.eqb_neq in Hne.
      apply negb_true_iff, bool_decide_eq_false in Hph. split; congruence.
    + intros (_ & t' & [= <-] & Hne & Hph). apply andb_true_iff. split.
      * by apply negb_true_iff, String.eqb_neq.
      * apply negb_true_iff, bool_decide_eq_false. congruence.
  - split; [done|]. by intros (_ & t & Ht & _).
Qed.

Lemma after_actuation_app (l rest : list event) :
  count is_actuation l = 0 ->
  after_actuation (l ++ rest) = after_actuation rest.
Proof.
  induction l as [|x l IH]; cbn [app after_actuation count]; [done|].
  destruct (is_actuation x); [done|]. auto.
Qed.

(** C7, as the code has it. When the LIFX call of step 4 fails, the
    failure is swallowed by an empty handler: nothing is printed, the
    events that follow the call are those of the acknowledgement alone,
    the handler returns, and the message is acked once and not nacked. *)
Theorem actuation_failure_is_swallowed (cfg : Config) (R : Remote)
    (message : Message) (b : Body) (n : notification) (e : exn) (s : files) :
  json message = Ok (Some b) ->
  truthy_setting (test b) = false ->
  decode cfg R (xml b) = Ok n ->
  eligible n = true ->
  out (saveDoc cfg R (envelopeId n) (orderNumber n) s) = Ret tt ->
  lifx_enabled cfg (lightColor n) = true ->
  rp R (lifx_request cfg (lightColor n)) = Err e ->
  out (messageHandler cfg R message s) = Ret tt
  /\ after_actuation (evs (messageHandler cfg R message s)) = ack_events message
  /\ acks (evs (messageHandler cfg R message s)) = 1
  /\ nacks (evs (messageHandler cfg R message s)) = 0.
Proof.
  intros Hj Ht Hd He Hs Hl Hrp.
  rewrite (messageHandler_eligible cfg R message b n s) by done.
  pose proof (saveDoc_quiet cfg R (envelopeId n) (orderNumber n) s) as Hq.
  destruct (saveDoc cfg R (envelopeId n) (orderNumber n) s) as [o f ev].
  cbn [out evs] in *. subst o. rewrite Hl. msimpl.
  destruct (count_ack_events message) as (Ha & Hn & _).
  repeat split.
  - rewrite after_actuation_app by (by apply count_debug_events).
    cbn [after_actuation is_actuation]. rewrite <- app_assoc.
    rewrite after_actuation_app by (by apply Hq; intros []). done.
  - unfold acks, nacks in *. rewrite !count_app. msimpl.
    rewrite !count_app, Ha, count_debug_events, Hq by (done || by intros []).
    done.
  - unfold acks, nacks in *. rewrite !count_app. msimpl.
    rewrite !count_app, Hn, count_debug_events, Hq by (done || by intros []).
    done.
Qed.

Lemma actuation_failure_is_swallowed_witness :
  rp Sample.remote_dark (lifx_request Sample.cfg (VStr "green")) = Err HttpError
  /\ out (messageHandler Sample.cfg Sample.remote_dark (Sample.message "<order/>") Sample.disk)
     = Ret tt
  /\ after_actuation
       (evs (messageHandler Sample.cfg Sample.remote_dark (Sample.message "<order/>") Sample.disk))
     = [Ack]
  /\ acks (evs (messageHandler Sample.cfg Sample.remote_dark
                  (Sample.message "<order/>") Sample.disk)) = 1
  /\ nacks (evs (messageHandler Sample.cfg Sample.remote_dark
                   (Sample.message "<order/>") Sample.disk)) = 0.
Proof.
  split; [reflexivity|].
  eapply (actuation_failure_is_swallowed Sample.cfg Sample.remote_dark
            (Sample.message "<order/>")); reflexivity.
Defined.

(** C7 as stated fails in one point: the failure is not logged. With the
    LIFX endpoint failing, no console line follows the call; the only
    later event is the acknowledgement. *)
Lemma actuation_failure_logged_counterexample :
  rp Sample.remote_dark (lifx_request Sample.cfg (VStr "green")) = Err HttpError
  /\ count is_actuation
       (evs (messageHandler Sample.cfg Sample.remote_dark (Sample.message "<order/>") Sample.disk))
     = 1
  /\ count is_console
       (after_actuation
          (evs (messageHandler Sample.cfg Sample.remote_dark
                  (Sample.message "<order/>") Sample.disk)))
     = 0.
Proof. vm_compute. auto. Qed.

(** C10. For an eligible message whose fulfilment succeeds, the LIFX call
    is made exactly when a light colour was extracted (a truthy value) and
    [lifxAccessToken] is set, not empty and not the placeholder
    ['{LIFX_ACCESS_TOKEN}']: then it is made once, with that colour and
    token; otherwise no such call is made. In both cases the handler
    returns and the message is acked once and not nacked. *)
Theorem actuation_only_when_configured (cfg : Config) (R : Remote)
    (message : Message) (b : Body) (n : notification) (s : files) :
  json message = Ok (Some b) ->
  truthy_setting (test b) = false ->
  decode cfg R (xml b) = Ok n ->
  eligible n = true ->
  out (saveDoc cfg R (envelopeId n) (orderNumber n) s) = Ret tt ->
  (lifx_enabled cfg (lightColor n) = true <->
   truthy (lightColor n) = true
   /\ exists t, lifxAccessToken cfg = Some t /\ t <> "" /\ t <> "{LIFX_ACCESS_TOKEN}")
  /\ count is_actuation (evs (messageHandler cfg R message s))
     = (if lifx_enabled cfg (lightColor n) then 1 else 0)
  /\ (lifx_enabled cfg (lightColor n) = true ->
      LifxPut (lifx_request cfg (lightColor n)) ∈ evs (messageHandler cfg R message s))
  /\ out (messageHandler cfg R message s) = Ret tt
  /\ acks (evs (messageHandler cfg R message s)) = 1
  /\ nacks (evs (messageHandler cfg R message s)) = 0.
Proof.
  intros Hj Ht Hd He Hs. split; [apply lifx_enabled_spec|].
  rewrite (messageHandler_eligible cfg R message b n s) by done.
  pose proof (saveDoc_quiet cfg R (envelopeId n) (orderNumber n) s) as Hq.
  destruct (saveDoc cfg R (envelopeId n) (orderNumber n) s) as [o f ev].
  cbn [out evs] in *. subst o. msimpl.
  destruct (count_ack_events message) as (Ha & Hn & _ & Hl).
  repeat split.
  - rewrite !count_app. msimpl. rewrite !count_app, Hl.
    rewrite count_debug_events, Hq by (done || by intros []).
    by destruct (lifx_enabled cfg (lightColor n)).
  - intros ->. set_solver.
  - unfold acks, nacks in *. rewrite !count_app. msimpl. rewrite !count_app, Ha.
    rewrite count_debug_events, Hq by (done || by intros []).
    by destruct (lifx_enabled cfg (lightColor n)).
  - unfold acks, nacks in *. rewrite !count_app. msimpl. rewrite !count_app, Hn.
    rewrite count_debug_events, Hq by (done || by intros []).
    by destruct (lifx_enabled cfg (lightColor n)).
Qed.

Lemma actuation_only_when_configured_witness :
  out (saveDoc Sample.cfg Sample.remote (VStr "4f1c-01") (VStr "SO-123/A") Sample.disk) = Ret tt
  /\ count is_actuation
       (evs (messageHandler Sample.cfg Sample.remote (Sample.message "<order/>") Sample.disk))
     = 1
  /\ acks (evs (messageHandler Sample.cfg Sample.remote (Sample.message "<order/>") Sample.disk))
     = 1.
Proof.
  split; [reflexivity|].
  assert (Hs : out (saveDoc Sample.cfg Sample.remote
                      (envelopeId Sample.order_notification)
                      (orderNumber Sample.order_notification) Sample.disk) = Ret tt)
    by (vm_compute; reflexivity).
  destruct (actuation_only_when_configured Sample.cfg Sample.remote
              (Sample.message "<order/>") {| test := Some ""; xml := "<order/>" |}
              Sample.order_notification Sample.disk eq_refl eq_refl eq_refl eq_refl Hs)
    as (_ & Hc & _ & _ & Ha & _).
  split; [exact Hc | exact Ha].
Defined.

(** ** The test harness *)

Lemma rename_try_spec (old new : string) (s : files) :
  old <> new ->
  s !! dirname old = Some Dir -> s !! dirname new = Some Dir ->
  s !! old <> Some Dir -> s !! new <> Some Dir ->
  exists s',
    try_catch (fse_renameSync old new) (fun _ => ret tt) s = mkRes (Ret tt) s' []
    /\ s' !! old = None
    /\ s' !! new = match s !! old with Some x => Some x | None => s !! new end
    /\ (forall q, q <> old -> q <> new -> s' !! q = s !! q).
Proof.
  intros Hne Hpo Hpn Hold Hnew.
  unfold try_catch, fse_renameSync, parent_error, ret. rewrite Hpo, Hpn.
  destruct (s !! old) as [[c|]|] eqn:Eo; [|done|].
  - destruct (s !! new) as [[c'|]|] eqn:En; [|done|].
    all: eexists; split; [reflexivity|].
    all: rewrite lookup_insert_eq, lookup_insert_ne, lookup_delete_eq by done.
    all: repeat split; try done.
    all: intros q Hq Hq'; by rewrite lookup_insert_ne, lookup_delete_ne.
  - exists s. by rewrite Eo.
Qed.

Lemma loop_S (cfg : Config) (k : nat) :
  processTest_loop cfg (S k) =
  (try_catch
     (fse_renameSync (test_path cfg (S k)) (test_path cfg (S k + 1)))
     (fun _ => ret tt) ;;;
   processTest_loop cfg k).
Proof. reflexivity. Qed.

(** The loop started at [n] moves each of the markers [1..n] one place up,
    the highest first. *)
Lemma loop_spec (cfg : Config) (n : nat) (s : files) :
  testOutputDir cfg <> "" ->
  s !! testOutputDir cfg = Some Dir ->
  markers_are_files cfg s ->
  exists s',
    processTest_loop cfg n s = mkRes (Ret tt) s' []
    /\ (forall q, (forall j, q <> test_path cfg j) -> s' !! q = s !! q)
    /\ (forall j, s' !! test_path cfg j =
          if decide (n = 0) then s !! test_path cfg j
          else if decide (j = 0 \/ n + 1 < j) then s !! test_path cfg j
          else if decide (j = 1) then None
          else if decide (j = n + 1)
               then match s !! test_path cfg n with
                    | Some x => Some x
                    | None => s !! test_path cfg (n + 1)
                    end
               else s !! test_path cfg (j - 1)).
Proof.
  intros Hd. revert s. induction n as [|k IH]; intros s Hdir Hs.
  { exists s. repeat split; done. }
  rewrite loop_S. unfold bind.
  destruct (rename_try_spec (test_path cfg (S k)) (test_path cfg (S k + 1)) s)
    as (s1 & -> & Hold & Hnew & Hoth);
    [|by rewrite test_path_parent|by rewrite test_path_parent|apply Hs|apply Hs|].
  { intros H%test_path_inj. lia. }
  assert (Hdir1 : s1 !! testOutputDir cfg = Some Dir).
  { rewrite Hoth; [done|intros Heq; symmetry in Heq; by apply test_path_ne_dir in Heq..]. }
  assert (Hs1 : markers_are_files cfg s1).
  { intros i. destruct (decide (i = S k)) as [->|Hi]; [by rewrite Hold|].
    destruct (decide (i = S k + 1)) as [->|Hi'].
    - rewrite Hnew. destruct (s !! test_path cfg (S k)) eqn:E; [|apply Hs].
      rewrite <- E. apply Hs.
    - rewrite Hoth; [apply Hs|intros H%test_path_inj; lia..]. }
  destruct (IH s1 Hdir1 Hs1) as (s2 & -> & Hq' & Hj'). clear IH.
  exists s2. split; [reflexivity|]. split.
  - intros q Hq. rewrite Hq' by done. by apply Hoth.
  - intros j. rewrite Hj'. clear Hj' Hq'.
    assert (Hsame : forall i, i <> S k -> i <> S k + 1 ->
              s1 !! test_path cfg i = s !! test_path cfg i).
    { intros i ? ?. apply Hoth; intros Heq%test_path_inj; lia. }
    repeat case_decide; subst; try lia.
    all: try (rewrite Hsame by lia; done).
    all: try done.
    rewrite Hsame by lia. replace (k + 1) with (S k) by lia. rewrite Hold.
    replace (S k - 1) with k by lia. by destruct (s !! test_path cfg k).
Qed.

(** One run of the harness on a stored test value: the markers move one
    place up and the value lands in [test1.txt]. *)
Lemma processTest_spec (cfg : Config) (v : string) (s : files) :
  enableBreakTest cfg && includes "/break" v = false ->
  harness_ready cfg s ->
  markers_are_files cfg s ->
  exists s',
    processTest cfg v s = mkRes (Ret tt) s' [ConsoleLog (MsgProcessingTest v)]
    /\ s' !! testOutputDir cfg = Some Dir
    /\ markers_are_files cfg s'
    /\ s' !! test_path cfg 1 = Some (File v)
    /\ (forall j, 2 <= j <= 19 -> s' !! test_path cfg j = s !! test_path cfg (j - 1)).
Proof.
  intros Hb [Hd Hu] Hs. unfold processTest. rewrite Hb.
  unfold console_log. unfold bind at 1 2 3. unfold ret at 1, emit, fse_exists.
  cbn [app].
  set (s0 := if negb match s !! testOutputDir cfg with Some _ => true | None => false end
             then <[testOutputDir cfg := Dir]> s else s).
  assert (Hmk : (if negb match s !! testOutputDir cfg with Some _ => true | None => false end
                 then fse_mkdir (testOutputDir cfg) else ret tt) s
                = mkRes (Ret tt) s0 []).
  { unfold s0, fse_mkdir, parent_error, ret.
    destruct Hu as [E | [E Ep]]; rewrite E; cbn [negb]; [done|]. by rewrite Ep, E. }
  assert (Hdir0 : s0 !! testOutputDir cfg = Some Dir).
  { unfold s0. destruct Hu as [E | [E _]]; rewrite E; cbn [negb]; [done|].
    apply lookup_insert_eq. }
  assert (Hs0 : forall j, s0 !! test_path cfg j = s !! test_path cfg j).
  { intros j. unfold s0. destruct (s !! testOutputDir cfg); cbn [negb]; [done|].
    rewrite lookup_insert_ne; [done|]. intros Heq. by apply (test_path_ne_dir cfg j). }
  unfold bind at 1. rewrite Hmk.
  destruct (loop_spec cfg 19 s0 Hd Hdir0) as (s1 & Hloop & Hq & Hj).
  { intros i. rewrite Hs0. apply Hs. }
  unfold bind. rewrite Hloop.
  change (path_join (testOutputDir cfg) "test1.txt") with (test_path cfg 1).
  assert (Hdir1 : s1 !! testOutputDir cfg = Some Dir).
  { rewrite Hq; [done|]. intros j Heq. by apply (test_path_ne_dir cfg j). }
  unfold fse_writeFile, parent_error. rewrite test_path_parent, Hdir1 by done.
  assert (H1 : s1 !! test_path cfg 1 = None).
  { rewrite Hj. by repeat case_decide; try lia. }
  rewrite H1. eexists. split; [reflexivity|].
  split; [|split; [|split]].
  - rewrite lookup_insert_ne; [done|]. intros Heq. by apply (test_path_ne_dir cfg 1).
  - intros i. destruct (decide (i = 1)) as [->|Hi]; [by rewrite lookup_insert_eq|].
    rewrite lookup_insert_ne by (intros Heq%test_path_inj; lia).
    rewrite Hj. repeat case_decide; try done; rewrite ?Hs0; try apply Hs.
    destruct (s !! test_path cfg 19) eqn:E; [rewrite <- E|]; apply Hs.
  - apply lookup_insert_eq.
  - intros j Hj'. rewrite lookup_insert_ne by (intros Heq%test_path_inj; lia).
    rewrite Hj. repeat case_decide; try lia. apply Hs0.
Qed.

Lemma includes_nonempty (needle hay : string) :
  needle <> "" -> includes needle hay = true -> hay <> "".
Proof. intros Hn Hi ->. by destruct needle. Qed.

Lemma process_test (cfg : Config) (R : Remote) (v xml : string) :
  v <> "" -> process cfg R (Some v) xml = processTest cfg v.
Proof.
  intros Hv. unfold process, truthy_setting.
  apply String.eqb_neq in Hv. by rewrite Hv.
Qed.

(** ** C6: the order of the markers *)

(** The sample disk holds no marker. *)
Lemma sample_disk_markers : markers_are_files Sample.cfg Sample.disk.
Proof.
  intros i. unfold Sample.disk, test_path, path_join.
  cbn [testOutputDir Sample.cfg String.app].
  rewrite lookup_insert_ne by discriminate.
  rewrite lookup_singleton_ne by discriminate. discriminate.
Qed.

Lemma sample_disk_harness : harness_ready Sample.cfg Sample.disk.
Proof. split; [discriminate|]. right. split; vm_compute; reflexivity. Qed.

(** C6. Where the test directory is named and usable (it is a
    directory, or it is missing and the directory that holds it is
    there), a run of the harness on a stored value moves every marker
    [test<i>.txt], [i] from 19 down to 1, to [test<i+1>.txt] and writes
    the value to [test1.txt]. Hence three values submitted in the order
    [v1], [v2], [v3] are all processed and leave [v3] in [test1.txt],
    [v2] in [test2.txt] and [v1] in [test3.txt]. *)
Theorem harness_keeps_order (cfg : Config) (R : Remote)
    (v1 v2 v3 x1 x2 x3 : string) (s : files) :
  stored_test cfg v1 -> stored_test cfg v2 -> stored_test cfg v3 ->
  harness_ready cfg s ->
  markers_are_files cfg s ->
  (fs (process cfg R (Some v1) x1 s) !! test_path cfg 1 = Some (File v1)
   /\ forall j, 2 <= j <= 19 ->
        fs (process cfg R (Some v1) x1 s) !! test_path cfg j
        = s !! test_path cfg (j - 1))
  /\ out ((process cfg R (Some v1) x1 ;;;
           process cfg R (Some v2) x2 ;;;
           process cfg R (Some v3) x3) s) = Ret tt
  /\ fs ((process cfg R (Some v1) x1 ;;;
          process cfg R (Some v2) x2 ;;;
          process cfg R (Some v3) x3) s) !! test_path cfg 1 = Some (File v3)
  /\ fs ((process cfg R (Some v1) x1 ;;;
          process cfg R (Some v2) x2 ;;;
          process cfg R (Some v3) x3) s) !! test_path cfg 2 = Some (File v2)
  /\ fs ((process cfg R (Some v1) x1 ;;;
          process cfg R (Some v2) x2 ;;;
          process cfg R (Some v3) x3) s) !! test_path cfg 3 = Some (File v1).
Proof.
  intros [Hv1 Hb1] [Hv2 Hb2] [Hv3 Hb3] Hr Hs.
  rewrite !process_test by done.
  destruct (processTest_spec cfg v1 s Hb1 Hr Hs) as (s1 & E1 & Hd1 & Hs1 & H11 & H1j).
  assert (Hr1 : harness_ready cfg s1) by (split; [apply Hr|by left]).
  destruct (processTest_spec cfg v2 s1 Hb2 Hr1 Hs1) as (s2 & E2 & Hd2 & Hs2 & H21 & H2j).
  assert (Hr2 : harness_ready cfg s2) by (split; [apply Hr|by left]).
  destruct (processTest_spec cfg v3 s2 Hb3 Hr2 Hs2) as (s3 & E3 & Hd3 & Hs3 & H31 & H3j).
  unfold bind. rewrite E1, E2, E3. cbn [out fs].
  split; [split; [exact H11|exact H1j]|]. split; [reflexivity|].
  split; [exact H31|]. split.
  - rewrite (H3j 2) by lia. exact H21.
  - rewrite (H3j 3) by lia. change (3 - 1) with 2.
    rewrite (H2j 2) by lia. exact H11.
Qed.

Lemma harness_keeps_order_witness :
  stored_test Sample.cfg "101"
  /\ harness_ready Sample.cfg Sample.disk
  /\ fs ((process Sample.cfg Sample.remote (Some "101") "" ;;;
          process Sample.cfg Sample.remote (Some "102") "" ;;;
          process Sample.cfg Sample.remote (Some "103") "") Sample.disk)
       !! test_path Sample.cfg 3 = Some (File "101").
Proof.
  assert (Hst : forall v, v <> "" -> includes "/break" v = false ->
                  stored_test Sample.cfg v).
  { intros v Hv Hb. split; [done|]. by rewrite Hb. }
  split; [by apply Hst|]. split; [apply sample_disk_harness|].
  apply (harness_keeps_order Sample.cfg Sample.remote "101" "102" "103" "" "" ""
           Sample.disk).
  - by apply Hst.
  - by apply Hst.
  - by apply Hst.
  - apply sample_disk_harness.
  - apply sample_disk_markers.
Defined.

(** ** C8: the ways the process ends itself *)

(** C8, as the code has it. A missing configuration and a missing consent,
    found by the start-up token check, each print their instructions and
    then end the process by [process.exit()] without a code, that is with
    the status 0. A break-marked test value, with the break test enabled,
    prints its line and ends the process with the status 2, another status
    and not zero, before the harness touches any file. *)
Theorem fatal_paths_exit (cfg : Config) (R : Remote) (s : files) :
  (truthy_setting (clientId cfg) = false \/ clientId cfg = Some "{CLIENT_ID}" ->
   testToken cfg R s = mkRes (Exit None) s [ConsoleLog MsgProblemConfigure])
  /\ (forall r b,
        truthy_setting (clientId cfg) = true ->
        clientId cfg <> Some "{CLIENT_ID}" ->
        checkToken R = Err (ApiError (Some r)) ->
        body r = Some b ->
        error b = Some "consent_required" ->
        testToken cfg R s
        = mkRes (Exit None) s
            [CheckToken; ConsoleLog (MsgConsentRequired (consent_url cfg))])
  /\ (forall v xml,
        enableBreakTest cfg = true ->
        includes "/break" v = true ->
        process cfg R (Some v) xml s
        = mkRes (Exit (Some 2%Z)) s [ConsoleError MsgBreaking])
  /\ status_of (@Exit unit None) = Some 0%Z
  /\ status_of (@Exit unit (Some 2%Z)) = Some 2%Z.
Proof.
  split; [|split; [|split; [|done]]].
  - intros Hc. unfold testToken, console_log.
    unfold try_catch, bind, emit, process_exit.
    assert (negb (truthy_setting (clientId cfg))
            || bool_decide (clientId cfg = Some "{CLIENT_ID}") = true) as ->; [|done].
    destruct Hc as [-> | ->]; [done|]. apply orb_true_r.
  - intros r b Hc Hp Htok Hb He. unfold testToken, dsJwtAuth_checkToken, console_log.
    unfold try_catch, bind, emit, process_exit, lift, ret, throw.
    rewrite Hc, bool_decide_eq_false_2 by done. cbn [negb orb app].
    rewrite Htok, Hb, He. done.
  - intros v xml He Hb.
    rewrite process_test by (by apply (includes_nonempty "/break")).
    unfold processTest, console_error. rewrite He, Hb. done.
Qed.

Lemma fatal_paths_exit_witness :
  clientId Sample.unconfigured = Some "{CLIENT_ID}"
  /\ testToken Sample.unconfigured Sample.remote ∅
     = mkRes (Exit None) ∅ [ConsoleLog MsgProblemConfigure]
  /\ testToken Sample.cfg Sample.remote_no_consent ∅
     = mkRes (Exit None) ∅
         [CheckToken; ConsoleLog (MsgConsentRequired (consent_url Sample.cfg))]
  /\ process Sample.cfg Sample.remote (Some "7/break") "" ∅
     = mkRes (Exit (Some 2%Z)) ∅ [ConsoleError MsgBreaking].
Proof.
  destruct (fatal_paths_exit Sample.unconfigured Sample.remote ∅) as (H1 & _).
  destruct (fatal_paths_exit Sample.cfg Sample.remote_no_consent ∅) as (_ & H2 & _).
  destruct (fatal_paths_exit Sample.cfg Sample.remote ∅) as (_ & _ & H3 & _).
  split; [reflexivity|]. split; [|split].
  - apply H1. by right.
  - by eapply H2.
  - by apply H3.
Defined.

(** C8 as stated fails in one point: the start-up exit is not an exit with
    a non-zero status. With the configuration left as shipped the process
    prints its instructions and ends with the status 0. *)
Lemma startup_exit_status_counterexample :
  out (testToken Sample.unconfigured Sample.remote ∅) = Exit None
  /\ status_of (out (testToken Sample.unconfigured Sample.remote ∅)) = Some 0%Z
  /\ evs (testToken Sample.unconfigured Sample.remote ∅)
     = [ConsoleLog MsgProblemConfigure].
Proof. vm_compute. auto. Qed.

(** * Further properties of the worker *)

Set Warnings "-clear-no-such-hyp".

(** ** The handler and the acknowledgement *)

Lemma rename_try_total (old new : string) (s : files) :
  exists s', try_catch (fse_renameSync old new) (fun _ => ret tt) s = mkRes (Ret tt) s' [].
Proof.
  unfold try_catch, fse_renameSync, parent_error, ret.
  destruct (s !! dirname old) as [[?|]|]; [by eexists| |by eexists].
  destruct (s !! old) as [[c|]|]; [| |by eexists].
  all: destruct (s !! dirname new) as [[?|]|]; [by eexists| |by eexists].
  all: destruct (s !! new) as [[c'|]|]; by eexists.
Qed.

Lemma loop_total (cfg : Config) (n : nat) (s : files) :
  exists s', processTest_loop cfg n s = mkRes (Ret tt) s' [].
Proof.
  revert s. induction n as [|k IH]; intros s; [by exists s|].
  rewrite loop_S. unfold bind.
  destruct (rename_try_total (test_path cfg (S k)) (test_path cfg (S k + 1)) s)
    as [s1 ->].
  destruct (IH s1) as [s2 ->]. by exists s2.
Qed.

(** The ways a run of the harness ends: by the break, or, after its one
    line, by returning or by the error of a file-system call. *)
Lemma processTest_cases (cfg : Config) (v : string) (s : files) :
  (enableBreakTest cfg && includes "/break" v = true
   /\ processTest cfg v s = mkRes (Exit (Some 2%Z)) s [ConsoleError MsgBreaking])
  \/ (enableBreakTest cfg && includes "/break" v = false
      /\ exists o s',
           processTest cfg v s = mkRes o s' [ConsoleLog (MsgProcessingTest v)]
           /\ (o = Ret tt \/ exists code, o = Throw (IoError code))).
Proof.
  unfold processTest, console_error, console_log.
  destruct (enableBreakTest cfg && includes "/break" v) eqn:Hb; [by left|right].
  split; [done|].
  unfold bind at 1 2 3. unfold ret at 1, emit, fse_exists. cbn [app].
  destruct ((if negb match s !! testOutputDir cfg with Some _ => true | None => false end
             then fse_mkdir (testOutputDir cfg) else ret tt) s)
    as [o0 s0 ev0] eqn:Hmk.
  assert (Hev0 : ev0 = [] /\ (o0 = Ret tt \/ exists code, o0 = Throw (IoError code))).
  { revert Hmk. unfold fse_mkdir, parent_error, ret.
    destruct (s !! testOutputDir cfg) eqn:E; cbn [negb]; rewrite ?E.
    - intros [= <- <- <-]. auto.
    - destruct (s !! dirname (testOutputDir cfg)) as [[?|]|]; intros [= <- <- <-]; eauto. }
  destruct Hev0 as [-> Ho0]. unfold bind at 1. rewrite Hmk.
  destruct Ho0 as [-> | [code ->]]; [|by do 2 eexists; split; [reflexivity|eauto]].
  destruct (loop_total cfg 19 s0) as [s1 Hloop].
  unfold bind. rewrite Hloop. unfold fse_writeFile, parent_error.
  destruct (s1 !! dirname (path_join (testOutputDir cfg) "test1.txt")) as [[?|]|].
  2: destruct (s1 !! path_join (testOutputDir cfg) "test1.txt") as [[c|]|].
  all: do 2 eexists; split; [reflexivity|]; eauto.
Qed.

(** [process] prints, calls the token provider, the document store and
    the light, and nothing else. *)
Lemma process_quiet (cfg : Config) (R : Remote) (t : option string) (xml : string)
    (s : files) (p : event -> bool) :
  (forall e, p e = true ->
     is_fulfillment e = false /\ is_console e = false /\ is_actuation e = false) ->
  count p (evs (process cfg R t xml s)) = 0.
Proof.
  intros Hp.
  assert (Hl : forall m, p (ConsoleLog m) = false).
  { intros m. destruct (p (ConsoleLog m)) eqn:E; [|done]. by apply Hp in E as (_ & ? & _). }
  assert (He : forall m, p (ConsoleError m) = false).
  { intros m. destruct (p (ConsoleError m)) eqn:E; [|done]. by apply Hp in E as (_ & ? & _). }
  assert (Hx : forall o, p (LifxPut o) = false).
  { intros o. destruct (p (LifxPut o)) eqn:E; [|done]. by apply Hp in E as (_ & _ & ?). }
  destruct (truthy_setting t) eqn:Ht.
  - unfold process. rewrite Ht.
    destruct (processTest_cases cfg (default "" t) s)
      as [[_ ->]|[_ (o & s' & -> & _)]]; msimpl; by rewrite ?He, ?Hl.
  - rewrite process_real by done.
    destruct (decode cfg R xml) as [n|e]; [|done].
    destruct (eligible n).
    + pose proof (saveDoc_quiet cfg R (envelopeId n) (orderNumber n) s p) as Hq.
      destruct (saveDoc cfg R (envelopeId n) (orderNumber n) s) as [[[]|e|c] f ev].
      all: cbn [evs] in *; msimpl; rewrite ?count_app, Hl, Hq.
      all: try (intros e' He'; by apply Hp in He' as (? & ? & _)).
      all: try done.
      destruct (lifx_enabled cfg (lightColor n)); msimpl; by rewrite ?Hx.
    + msimpl. rewrite Hl. destruct (debug cfg); msimpl; by rewrite ?Hl.
Qed.

(** X1. Whatever the message and whatever the collaborators answer, the
    handler never nacks, and it calls [message.ack()] once when its
    processing returns and not at all when processing raises or ends the
    process. *)
Theorem handler_acks_iff_it_returns (cfg : Config) (R : Remote)
    (message : Message) (s : files) :
  nacks (evs (messageHandler cfg R message s)) = 0
  /\ acks (evs (messageHandler cfg R message s))
     = match out (messageHandler cfg R message s) with
       | Ret _ => 1
       | Throw _ | Exit _ => 0
       end.
Proof.
  rewrite messageHandler_run.
  destruct (count_ack_events message) as (Ha & Hn & _).
  assert (Hmid : forall p, p = is_ack \/ p = is_nack ->
            count p (evs match json message with
                         | Ok (Some b) => process cfg R (test b) (xml b) s
                         | _ => mkRes (Ret tt) s [ConsoleLog (MsgBadBody (id message))]
                         end) = 0).
  { intros p Hp. destruct (json message) as [[b|]|e].
    - apply process_quiet. by destruct Hp as [-> | ->]; intros [].
    - by destruct Hp as [-> | ->].
    - by destruct Hp as [-> | ->]. }
  pose proof (Hmid is_ack (or_introl eq_refl)) as Hma.
  pose proof (Hmid is_nack (or_intror eq_refl)) as Hmn. clear Hmid.
  destruct (match json message with
            | Ok (Some b) => process cfg R (test b) (xml b) s
            | _ => mkRes (Ret tt) s [ConsoleLog (MsgBadBody (id message))]
            end) as [[[]|e|c] f ev].
  all: cbn [out evs] in *; unfold acks, nacks in *.
  all: rewrite !count_app, ?Ha, ?Hn, Hma, Hmn, !count_debug_events by done.
  all: done.
Qed.

(** X2. A failing [message.ack()] changes nothing but the log: the handler
    ends as it does when the acknowledgement succeeds, with the same file
    system and the same events, followed, when it returns, by the two
    error lines. *)
Theorem ack_failure_only_logs (cfg : Config) (R : Remote) (message : Message)
    (e : exn) (s : files) :
  ack_raises message = Some e ->
  out (messageHandler cfg R message s) = out (messageHandler cfg R (acking message) s)
  /\ fs (messageHandler cfg R message s) = fs (messageHandler cfg R (acking message) s)
  /\ evs (messageHandler cfg R message s)
     = (evs (messageHandler cfg R (acking message) s) ++
        match out (messageHandler cfg R message s) with
        | Ret _ => [ConsoleError MsgAckError; ConsoleError (MsgException e)]
        | Throw _ | Exit _ => []
        end)%list.
Proof.
  intros He. rewrite !messageHandler_run.
  change (json (acking message)) with (json message).
  change (id (acking message)) with (id message).
  change (debug_events cfg (acking message)) with (debug_events cfg message).
  unfold ack_events. rewrite He. cbn [ack_raises acking].
  destruct (match json message with
            | Ok (Some b) => process cfg R (test b) (xml b) s
            | _ => mkRes (Ret tt) s [ConsoleLog (MsgBadBody (id message))]
            end) as [[[]|e'|c] f ev]; cbn [out fs evs].
  - repeat split. by rewrite <- !app_assoc.
  - by rewrite app_nil_r.
  - by rewrite app_nil_r.
Qed.

Lemma ack_failure_only_logs_witness :
  out (messageHandler Sample.cfg Sample.remote (Sample2.unackable "<sent/>") ∅) = Ret tt
  /\ evs (messageHandler Sample.cfg Sample.remote (Sample2.unackable "<sent/>") ∅)
     = (evs (messageHandler Sample.cfg Sample.remote
               (acking (Sample2.unackable "<sent/>")) ∅) ++
        [ConsoleError MsgAckError; ConsoleError (MsgException (JsError "ack failed"))])%list.
Proof.
  destruct (ack_failure_only_logs Sample.cfg Sample.remote
              (Sample2.unackable "<sent/>") (JsError "ack failed") ∅ eq_refl)
    as (Ho & _ & He).
  split; [vm_compute; reflexivity|].
  rewrite He. f_equal.
Defined.

(** ** Harness messages through the handler *)

(** X3. Where the test directory is named and usable, a message that
    carries a stored test value is handled without reading its XML and
    without any remote call: the value is written to [test1.txt], one
    line is printed, the handler returns and the message is acked
    once. *)
Theorem test_message_is_stored_and_acked (cfg : Config) (R : Remote)
    (message : Message) (b : Body) (v : string) (s : files) :
  json message = Ok (Some b) ->
  test b = Some v ->
  stored_test cfg v ->
  harness_ready cfg s ->
  markers_are_files cfg s ->
  out (messageHandler cfg R message s) = Ret tt
  /\ fs (messageHandler cfg R message s) !! test_path cfg 1 = Some (File v)
  /\ evs (messageHandler cfg R message s)
     = (debug_events cfg message ++
        [ConsoleLog (MsgProcessingTest v)] ++ ack_events message)%list.
Proof.
  intros Hj Ht [Hv Hb] Hr Hs. rewrite messageHandler_run, Hj, Ht.
  rewrite process_test by done.
  destruct (processTest_spec cfg v s Hb Hr Hs) as (s1 & -> & _ & _ & H1 & _).
  done.
Qed.

Lemma test_message_is_stored_and_acked_witness :
  stored_test Sample.cfg "101"
  /\ harness_ready Sample.cfg Sample.disk
  /\ evs (messageHandler Sample.cfg Sample.remote (Sample2.test_message "101")
            Sample.disk)
     = [ConsoleLog (MsgProcessingTest "101"); Ack].
Proof.
  assert (Hst : stored_test Sample.cfg "101") by (by split).
  split; [exact Hst|]. split; [apply sample_disk_harness|].
  apply (test_message_is_stored_and_acked Sample.cfg Sample.remote
           (Sample2.test_message "101") {| test := Some "101"; xml := "" |}
           "101" Sample.disk eq_refl eq_refl Hst).
  - apply sample_disk_harness.
  - apply sample_disk_markers.
Defined.

(** X4. A break-marked test message, with the break test enabled, ends
    the process with the status 2 before the message is acked and before
    any file is touched, so that the broker delivers it again. *)
Theorem break_message_exits_unacked (cfg : Config) (R : Remote)
    (message : Message) (b : Body) (v : string) (s : files) :
  json message = Ok (Some b) ->
  test b = Some v ->
  enableBreakTest cfg = true ->
  includes "/break" v = true ->
  messageHandler cfg R message s
  = mkRes (Exit (Some 2%Z)) s (debug_events cfg message ++ [ConsoleError MsgBreaking])%list
  /\ acks (evs (messageHandler cfg R message s)) = 0.
Proof.
  intros Hj Ht He Hb.
  assert (Hrun : messageHandler cfg R message s
                 = mkRes (Exit (Some 2%Z)) s
                     (debug_events cfg message ++ [ConsoleError MsgBreaking])%list).
  { rewrite messageHandler_run, Hj, Ht.
    rewrite process_test by (by apply (includes_nonempty "/break")).
    unfold processTest, console_error. rewrite He, Hb. done. }
  split; [exact Hrun|]. rewrite Hrun. cbn [evs]. unfold acks.
  rewrite count_app, count_debug_events by done. done.
Qed.

Lemma break_message_exits_unacked_witness :
  includes "/break" "7/break" = true
  /\ messageHandler Sample.cfg Sample.remote (Sample2.test_message "7/break") ∅
     = mkRes (Exit (Some 2%Z)) ∅ [ConsoleError MsgBreaking].
Proof.
  split; [reflexivity|].
  apply (break_message_exits_unacked Sample.cfg Sample.remote
           (Sample2.test_message "7/break") {| test := Some "7/break"; xml := "" |}
           "7/break" ∅ eq_refl eq_refl eq_refl eq_refl).
Defined.

(** ** The ring of markers *)

(** Everything a run of the harness on a stored value does to the file
    system. *)
Lemma processTest_full (cfg : Config) (v : string) (s : files) :
  enableBreakTest cfg && includes "/break" v = false ->
  harness_ready cfg s ->
  markers_are_files cfg s ->
  exists s',
    processTest cfg v s = mkRes (Ret tt) s' [ConsoleLog (MsgProcessingTest v)]
    /\ markers_are_files cfg s'
    /\ s' !! test_path cfg 1 = Some (File v)
    /\ (forall j, 2 <= j <= 19 -> s' !! test_path cfg j = s !! test_path cfg (j - 1))
    /\ s' !! test_path cfg 20
       = match s !! test_path cfg 19 with
         | Some x => Some x
         | None => s !! test_path cfg 20
         end
    /\ (forall j, j = 0 \/ 20 < j -> s' !! test_path cfg j = s !! test_path cfg j)
    /\ s' !! testOutputDir cfg = Some Dir
    /\ (forall q, not_a_marker cfg q -> q <> testOutputDir cfg -> s' !! q = s !! q).
Proof.
  intros Hb [Hd Hu] Hs. unfold processTest. rewrite Hb.
  unfold console_log. unfold bind at 1 2 3. unfold ret at 1, emit, fse_exists.
  cbn [app].
  set (s0 := if negb match s !! testOutputDir cfg with Some _ => true | None => false end
             then <[testOutputDir cfg := Dir]> s else s).
  assert (Hmk : (if negb match s !! testOutputDir cfg with Some _ => true | None => false end
                 then fse_mkdir (testOutputDir cfg) else ret tt) s
                = mkRes (Ret tt) s0 []).
  { unfold s0, fse_mkdir, parent_error, ret.
    destruct Hu as [E | [E Ep]]; rewrite E; cbn [negb]; [done|]. by rewrite Ep, E. }
  assert (Hs0 : forall j, s0 !! test_path cfg j = s !! test_path cfg j).
  { intros j. unfold s0. destruct (s !! testOutputDir cfg); cbn [negb]; [done|].
    rewrite lookup_insert_ne; [done|]. intros Heq. by apply (test_path_ne_dir cfg j). }
  assert (Hd0 : s0 !! testOutputDir cfg = Some Dir).
  { unfold s0. destruct Hu as [E | [E _]]; rewrite E; cbn [negb]; [done|].
    apply lookup_insert_eq. }
  assert (Hq0 : forall q, q <> testOutputDir cfg -> s0 !! q = s !! q).
  { intros q Hq. unfold s0. destruct (s !! testOutputDir cfg); cbn [negb]; [done|].
    by rewrite lookup_insert_ne. }
  unfold bind at 1. rewrite Hmk.
  destruct (loop_spec cfg 19 s0 Hd Hd0) as (s1 & Hloop & Hframe & Hj).
  { intros i. rewrite Hs0. apply Hs. }
  unfold bind. rewrite Hloop.
  change (path_join (testOutputDir cfg) "test1.txt") with (test_path cfg 1).
  assert (Hd1 : s1 !! testOutputDir cfg = Some Dir).
  { rewrite Hframe; [done|]. intros j Heq. by apply (test_path_ne_dir cfg j). }
  unfold fse_writeFile, parent_error. rewrite test_path_parent, Hd1 by done.
  assert (H1 : s1 !! test_path cfg 1 = None).
  { rewrite Hj. by repeat case_decide; try lia. }
  rewrite H1. eexists. split; [reflexivity|].
  assert (Hne : forall j, j <> 1 ->
            <[test_path cfg 1 := File v]> s1 !! test_path cfg j = s1 !! test_path cfg j).
  { intros j Hj1. apply lookup_insert_ne. intros Heq%test_path_inj. lia. }
  repeat split.
  - intros i. destruct (decide (i = 1)) as [->|Hi]; [by rewrite lookup_insert_eq|].
    rewrite Hne by done.
    rewrite Hj. repeat case_decide; try done; rewrite ?Hs0; try apply Hs.
    destruct (s !! test_path cfg 19) eqn:E; [rewrite <- E|]; apply Hs.
  - apply lookup_insert_eq.
  - intros j Hj'. rewrite Hne by lia.
    rewrite Hj. repeat case_decide; try lia. apply Hs0.
  - rewrite Hne by lia. rewrite Hj. repeat case_decide; try lia.
    by rewrite !Hs0.
  - intros j Hj'. rewrite Hne by lia. rewrite Hj.
    repeat case_decide; try lia; apply Hs0.
  - rewrite lookup_insert_ne by apply test_path_ne_dir. done.
  - intros q Hq Hqd. rewrite lookup_insert_ne by (intros Heq; by apply (Hq 1)).
    rewrite Hframe by done. by apply Hq0.
Qed.








(** A batch of harness messages, by induction on the batch. *)
Lemma process_all_markers (cfg : Config) (R : Remote) (bodies : list Body)
    (vs : list string) (s : files) :
  map test bodies = map Some vs ->
  Forall (stored_test cfg) vs ->
  harness_ready cfg s ->
  markers_are_files cfg s ->
  exists s' ev,
    process_all cfg R bodies s = mkRes (Ret tt) s' ev
    /\ markers_are_files cfg s'
    /\ (forall j x, 1 <= j -> j + length vs <= 20 ->
          s !! test_path cfg j = Some x ->
          s' !! test_path cfg (j + length vs) = Some x)
    /\ (forall i v, i < 20 -> reverse vs !! i = Some v ->
          s' !! test_path cfg (S i) = Some (File v)).
Proof.
  revert vs s. induction bodies as [|b bodies IH]; intros [|v vs] s Hm Hst Hr Hs;
    try discriminate.
  { exists s, []. split; [done|]. split; [done|]. split.
    - intros j x _ _ Hx. by rewrite Nat.add_0_r.
    - intros i v _ Hv. by rewrite reverse_nil in Hv. }
  injection Hm as Hb Hm. apply Forall_cons in Hst as [[Hv Hbr] Hst].
  cbn [process_all]. rewrite Hb, process_test by done.
  destruct (processTest_full cfg v s Hbr Hr Hs)
    as (s1 & E1 & Hs1 & H1 & Hshift & H20 & _ & Hd1 & _).
  assert (Hr1 : harness_ready cfg s1) by (split; [apply Hr|by left]).
  destruct (IH vs s1 Hm Hst Hr1 Hs1) as (s2 & ev & E2 & Hs2 & Hkeep & Hrev).
  assert (Hup : forall j x, 1 <= j <= 19 -> s !! test_path cfg j = Some x ->
            s1 !! test_path cfg (j + 1) = Some x).
  { intros j x Hj Hx. destruct (decide (j = 19)) as [->|Hne].
    - change (19 + 1) with 20. by rewrite H20, Hx.
    - rewrite Hshift by lia. by replace (j + 1 - 1) with j by lia. }
  unfold bind. rewrite E1, E2. do 2 eexists. split; [reflexivity|].
  split; [done|]. split.
  - intros j x Hj Hlen Hx. cbn [length] in *.
    replace (j + S (length vs)) with ((j + 1) + length vs) by lia.
    apply Hkeep; [lia..|]. apply Hup; [lia|done].
  - intros i w Hi Hw. rewrite reverse_cons in Hw.
    destruct (decide (i < length vs)) as [Hlt|Hge].
    + rewrite lookup_app_l in Hw by (by rewrite length_reverse). by apply Hrev.
    + rewrite lookup_app_r in Hw by (rewrite length_reverse; lia).
      rewrite length_reverse in Hw.
      destruct (i - length vs) as [|k] eqn:Ek; [|by destruct k].
      injection Hw as <-. assert (i = length vs) as -> by lia.
      replace (S (length vs)) with (1 + length vs) by lia.
      apply Hkeep; [lia..|done].
Qed.

(** X6. Where the test directory is named and usable, after any batch of
    stored test values, handled one after the other, the markers hold the
    most recent values, newest first: [test1.txt] the last value,
    [test2.txt] the one before, and so on up to [test20.txt]; older
    values are gone. *)
Theorem harness_keeps_newest_first (cfg : Config) (R : Remote)
    (bodies : list Body) (vs : list string) (s : files) :
  map test bodies = map Some vs ->
  Forall (stored_test cfg) vs ->
  harness_ready cfg s ->
  markers_are_files cfg s ->
  out (process_all cfg R bodies s) = Ret tt
  /\ forall i v, i < 20 -> reverse vs !! i = Some v ->
       fs (process_all cfg R bodies s) !! test_path cfg (S i) = Some (File v).
Proof.
  intros Hm Hst Hr Hs.
  destruct (process_all_markers cfg R bodies vs s Hm Hst Hr Hs)
    as (s' & ev & -> & _ & _ & Hrev).
  split; [done|exact Hrev].
Qed.

Lemma harness_keeps_newest_first_witness :
  Forall (stored_test Sample.cfg) ["a"; "b"; "c"; "d"]
  /\ harness_ready Sample.cfg Sample.disk
  /\ fs (process_all Sample.cfg Sample.remote
           [{| test := Some "a"; xml := "" |}; {| test := Some "b"; xml := "" |};
            {| test := Some "c"; xml := "" |}; {| test := Some "d"; xml := "" |}]
           Sample.disk)
       !! test_path Sample.cfg 4 = Some (File "a").
Proof.
  assert (Hst : Forall (stored_test Sample.cfg) ["a"; "b"; "c"; "d"]).
  { repeat constructor; discriminate. }
  split; [exact Hst|]. split; [apply sample_disk_harness|].
  destruct (harness_keeps_newest_first Sample.cfg Sample.remote
              [{| test := Some "a"; xml := "" |}; {| test := Some "b"; xml := "" |};
               {| test := Some "c"; xml := "" |}; {| test := Some "d"; xml := "" |}]
              ["a"; "b"; "c"; "d"] Sample.disk eq_refl Hst) as [_ Hrev].
  { apply sample_disk_harness. }
  { apply sample_disk_markers. }
  apply (Hrev 3 "a"); [lia|reflexivity].
Defined.

(** ** More on [saveDoc] *)

(** X7. When the token provider or the document store fails, or when the
    order number is not a string, [saveDoc] writes nothing: it prints the
    context and the error and raises its own error. After a failed token
    check the document store is not called; an order number that is not a
    string is found out only after the documents were fetched. *)
Theorem saveDoc_failure_writes_nothing (cfg : Config) (R : Remote)
    (eid ord : jsval) (s : files) :
  (forall e, checkToken R = Err e ->
     saveDoc cfg R eid ord s
     = mkRes (Throw (JsError "saveDoc error")) s
         [CheckToken; ConsoleError (MsgSaveDocError eid ord);
          ConsoleError (MsgException e)])
  /\ (forall e, checkToken R = Ok tt ->
        getDocument R (accountId R) eid = Err e ->
        saveDoc cfg R eid ord s
        = mkRes (Throw (JsError "saveDoc error")) s
            [CheckToken; GetDocument (accountId R) eid;
             ConsoleError (MsgSaveDocError eid ord); ConsoleError (MsgException e)])
  /\ (forall doc, checkToken R = Ok tt ->
        getDocument R (accountId R) eid = Ok doc ->
        (forall K, ord <> VStr K) ->
        saveDoc cfg R eid ord s
        = mkRes (Throw (JsError "saveDoc error")) s
            [CheckToken; GetDocument (accountId R) eid;
             ConsoleError (MsgSaveDocError eid ord);
             ConsoleError (MsgException TypeError)]).
Proof.
  repeat split.
  - intros e He. run_M. by rewrite He.
  - intros e Ht He. run_M. rewrite Ht. msimpl. by rewrite He.
  - intros doc Ht Hd Hord. run_M. rewrite Ht. msimpl. rewrite Hd. msimpl.
    destruct ord as [| |K|l|props]; try done. by destruct (Hord K).
Qed.

Lemma saveDoc_failure_writes_nothing_witness :
  getDocument Sample.remote_down (accountId Sample.remote_down) (VStr "4f1c-01")
  = Err HttpError
  /\ fs (saveDoc Sample.cfg Sample.remote_down (VStr "4f1c-01") (VStr "SO-123/A") ∅) = ∅
  /\ fs (saveDoc Sample.cfg Sample.remote (VStr "4f1c-01")
           (VObj [("_", VStr "SO-123/A")]) ∅) = ∅.
Proof.
  destruct (saveDoc_failure_writes_nothing Sample.cfg Sample.remote_down
              (VStr "4f1c-01") (VStr "SO-123/A") ∅) as (_ & Hdoc & _).
  destruct (saveDoc_failure_writes_nothing Sample.cfg Sample.remote
              (VStr "4f1c-01") (VObj [("_", VStr "SO-123/A")]) ∅) as (_ & _ & Hord).
  split; [reflexivity|]. split.
  - by rewrite (Hdoc HttpError eq_refl eq_refl).
  - by rewrite (Hord "%PDF-1.4 combined" eq_refl eq_refl).
Defined.



(** X9. The file name made from an order number holds neither a path
    separator nor a dot, so the order number cannot move the artifact out
    of the output directory or change its extension; sanitizing twice is
    sanitizing once, and sanitizing goes through concatenation. *)
Theorem sanitized_name_is_flat (K K' : string) :
  includes "/" (replace_nonword K) = false
  /\ includes "." (replace_nonword K) = false
  /\ replace_nonword (replace_nonword K) = replace_nonword K
  /\ replace_nonword (K +:+ K') = replace_nonword K +:+ replace_nonword K'.
Proof.
  assert (Hw : forall a, is_word (if is_word a then a else "_"%char) = true).
  { intros a. by destruct (is_word a) eqn:E. }
  assert (Hno : forall c, is_word c = false ->
            forall s, includes (String c "") (replace_nonword s) = false).
  { intros c Hc. induction s as [|a s IH]; [reflexivity|].
    cbn [replace_nonword includes String.prefix]. rewrite IH, orb_false_r.
    destruct (Ascii.ascii_dec c _) as [->|]; [|done].
    by rewrite Hw in Hc. }
  split; [by apply Hno|]. split; [by apply Hno|]. split.
  - induction K as [|a K IH]; [reflexivity|].
    cbn [replace_nonword]. rewrite IH. f_equal.
    by destruct (is_word a) eqn:E; rewrite ?E.
  - induction K as [|a K IH]; [reflexivity|].
    rewrite app_cons. cbn [replace_nonword]. by rewrite IH, app_cons.
Qed.

(** X10. Order numbers that differ only in characters that are not word
    characters share one file: where the output directory can be used,
    fulfilling the second order replaces the documents of the first. *)
Theorem same_sanitized_order_shares_file (cfg : Config) (R : Remote)
    (eid1 eid2 : jsval) (K1 K2 doc1 doc2 : string) (s : files) :
  replace_nonword K1 = replace_nonword K2 ->
  checkToken R = Ok tt ->
  getDocument R (accountId R) eid1 = Ok doc1 ->
  getDocument R (accountId R) eid2 = Ok doc2 ->
  output_ready cfg s ->
  s !! artifact_path cfg K1 <> Some Dir ->
  artifact_path cfg K1 = artifact_path cfg K2
  /\ fs (saveDoc cfg R eid1 (VStr K1) s) !! artifact_path cfg K1 = Some (File doc1)
  /\ fs (saveDoc cfg R eid2 (VStr K2) (fs (saveDoc cfg R eid1 (VStr K1) s)))
       !! artifact_path cfg K1 = Some (File doc2).
Proof.
  intros Hk Ht Hd1 Hd2 Hr Hs.
  assert (Hp : artifact_path cfg K1 = artifact_path cfg K2).
  { unfold artifact_path. by rewrite Hk. }
  split; [exact Hp|].
  rewrite (saveDoc_run cfg R eid1 K1 doc1 s) by done. cbn [fs].
  split; [apply lookup_insert_eq|].
  rewrite (saveDoc_run cfg R eid2 K2 doc2).
  - cbn [fs]. rewrite <- Hp. apply lookup_insert_eq.
  - done.
  - done.
  - apply output_ready_after; [done|]. apply path_join_ne.
  - rewrite <- Hp, lookup_insert_eq. discriminate.
Qed.

Lemma same_sanitized_order_shares_file_witness :
  replace_nonword "SO-1/A" = replace_nonword "SO-1_A"
  /\ output_ready Sample.cfg Sample.disk
  /\ fs (saveDoc Sample.cfg Sample2.by_envelope (VStr "e-2") (VStr "SO-1_A")
           (fs (saveDoc Sample.cfg Sample2.by_envelope (VStr "e-1") (VStr "SO-1/A")
                  Sample.disk)))
       !! artifact_path Sample.cfg "SO-1/A" = Some (File "documents of e-2").
Proof.
  split; [reflexivity|]. split; [apply sample_disk_output|].
  apply (same_sanitized_order_shares_file Sample.cfg Sample2.by_envelope
           (VStr "e-1") (VStr "e-2") "SO-1/A" "SO-1_A"
           "documents of e-1" "documents of e-2" Sample.disk
           eq_refl eq_refl eq_refl eq_refl).
  - apply sample_disk_output.
  - vm_compute. discriminate.
Defined.

(** ** More on eligible notifications *)

(** X11. When [saveDoc] raises for an eligible message the light is left
    alone: the handler stops before step 4, makes no LIFX call, and leaves
    the file system as [saveDoc] left it. *)
Theorem failed_fulfilment_skips_the_light (cfg : Config) (R : Remote)
    (message : Message) (b : Body) (n : notification) (e : exn) (s : files) :
  json message = Ok (Some b) ->
  truthy_setting (test b) = false ->
  decode cfg R (xml b) = Ok n ->
  eligible n = true ->
  out (saveDoc cfg R (envelopeId n) (orderNumber n) s) = Throw e ->
  count is_actuation (evs (messageHandler cfg R message s)) = 0
  /\ fs (messageHandler cfg R message s)
     = fs (saveDoc cfg R (envelopeId n) (orderNumber n) s)
  /\ evs (messageHandler cfg R message s)
     = (debug_events cfg message ++
        ConsoleLog (MsgReceived n)
        :: evs (saveDoc cfg R (envelopeId n) (orderNumber n) s))%list.
Proof.
  intros Hj Ht Hd He Hs.
  rewrite (messageHandler_eligible cfg R message b n s) by done.
  pose proof (saveDoc_quiet cfg R (envelopeId n) (orderNumber n) s is_actuation) as Hq.
  destruct (saveDoc cfg R (envelopeId n) (orderNumber n) s) as [o f ev].
  cbn [out fs evs] in *. subst o. cbn [out fs evs].
  repeat split. rewrite count_app, count_debug_events by done. msimpl.
  rewrite Hq; [done|]. by intros [].
Qed.

Lemma failed_fulfilment_skips_the_light_witness :
  out (saveDoc Sample.cfg Sample.remote_down (VStr "4f1c-01") (VStr "SO-123/A") ∅)
  = Throw (JsError "saveDoc error")
  /\ count is_actuation
       (evs (messageHandler Sample.cfg Sample.remote_down (Sample.message "<order/>") ∅))
     = 0.
Proof.
  split; [reflexivity|].
  eapply (failed_fulfilment_skips_the_light Sample.cfg Sample.remote_down
            (Sample.message "<order/>")); reflexivity.
Defined.

(** X12. With the break test enabled and an output directory that can
    be used, an eligible notification whose order number holds ["/break"]
    has its documents stored and is then reported as failed: the file is
    written, [saveDoc] raises after the write, the handler rejects, and
    the message is not acked. *)
Theorem break_order_is_stored_but_rejected (cfg : Config) (R : Remote)
    (message : Message) (b : Body) (n : notification) (K doc : string) (s : files) :
  json message = Ok (Some b) ->
  truthy_setting (test b) = false ->
  decode cfg R (xml b) = Ok n ->
  envStatus n = VStr "Completed" ->
  orderNumber n = VStr K ->
  enableBreakTest cfg = true ->
  includes "/break" K = true ->
  checkToken R = Ok tt ->
  getDocument R (accountId R) (envelopeId n) = Ok doc ->
  output_ready cfg s ->
  s !! artifact_path cfg K <> Some Dir ->
  out (messageHandler cfg R message s) = Throw (JsError "job process#saveDoc error")
  /\ fs (messageHandler cfg R message s) !! artifact_path cfg K = Some (File doc)
  /\ acks (evs (messageHandler cfg R message s)) = 0.
Proof.
  intros Hj Ht Hd Hst Hk He Hb Htok Hdoc Hr Hs.
  assert (Hel : eligible n = true).
  { unfold eligible. rewrite Hst, Hk. cbn [loose_eq truthy].
    change (String.eqb "Completed" "Completed") with true. cbn iota.
    assert (K <> "") as Hne%String.eqb_neq by (by apply (includes_nonempty "/break")).
    by rewrite Hne. }
  rewrite (messageHandler_eligible cfg R message b n s) by done.
  rewrite Hk, (saveDoc_run cfg R (envelopeId n) K doc s) by done.
  rewrite He, Hb. cbn [andb out fs evs].
  split; [done|]. split; [apply lookup_insert_eq|].
  unfold acks. rewrite count_app, count_debug_events by done. done.
Qed.

Lemma break_order_is_stored_but_rejected_witness :
  decode Sample.cfg Sample2.two_orders "<break/>"
  = Ok {| envelopeId := VStr "4f1c-01"; created := VStr "2019-03-01T10:00:00";
          envStatus := VStr "Completed";
          completed := Some (VStr "2019-03-01T11:00:00");
          subject := VStr "Please sign"; senderName := VStr "Pat Sender";
          senderEmail := VStr "pat@example.com";
          orderNumber := VStr "7/break"; lightColor := VNull |}
  /\ output_ready Sample.cfg Sample.disk
  /\ out (messageHandler Sample.cfg Sample2.two_orders (Sample.message "<break/>")
            Sample.disk)
     = Throw (JsError "job process#saveDoc error")
  /\ fs (messageHandler Sample.cfg Sample2.two_orders (Sample.message "<break/>")
           Sample.disk)
       !! artifact_path Sample.cfg "7/break" = Some (File "%PDF-1.4 combined").
Proof.
  split; [reflexivity|]. split; [apply sample_disk_output|].
  destruct (break_order_is_stored_but_rejected Sample.cfg Sample2.two_orders
              (Sample.message "<break/>") {| test := Some ""; xml := "<break/>" |}
              _ "7/break" "%PDF-1.4 combined" Sample.disk
              eq_refl eq_refl eq_refl eq_refl eq_refl eq_refl eq_refl eq_refl eq_refl)
    as (Ho & Hf & _).
  { apply sample_disk_output. }
  { vm_compute. discriminate. }
  split; [exact Ho|exact Hf].
Defined.



(** ** What step 1 needs *)

Lemma only_ok {A} (a : A) : only_TypeError (Ok a).
Proof. by intros e. Qed.

Lemma only_rbind {A B} (r : result A) (f : A -> result B) :
  only_TypeError r -> (forall a, only_TypeError (f a)) -> only_TypeError (rbind r f).
Proof.
  intros Hr Hf e. destruct r as [a|e']; cbn [rbind]; [apply Hf|].
  intros [= <-]. by apply Hr.
Qed.

Lemma only_prop (v : jsval) (name : string) : only_TypeError (prop v name).
Proof. intros e. destruct v; cbn [prop]; congruence. Qed.

Lemma only_first (v : jsval) : only_TypeError (first v).
Proof. intros e. destruct v; cbn [first]; congruence. Qed.

Lemma only_read (v : jsval) (name : string) :
  only_TypeError (a <~ prop v name ;; first a).
Proof. apply only_rbind; [apply only_prop|]. intros a. apply only_first. Qed.

Lemma only_find (v : jsval) (p : jsval -> result bool) :
  (forall x, only_TypeError (p x)) -> only_TypeError (find v p).
Proof.
  intros Hp e. destruct v as [| | |l|]; cbn [find]; try congruence.
  induction l as [|x l IH]; cbn [find_in]; [done|].
  destruct (p x) as [[]|e'] eqn:E; [done|exact IH|].
  intros [= <-]. by apply (Hp x).
Qed.

Lemma only_toStr (v : jsval) : only_TypeError (toStr v).
Proof.
  revert v. fix IH 1. intros [| |s|l|props]; cbn [toStr]; try apply only_ok.
  - apply only_rbind; [|intros parts; apply only_ok].
    induction l as [|x l IHl]; [apply only_ok|].
    apply only_rbind.
    + pose proof (IH x) as Hx. destruct x; try apply only_ok; exact Hx.
    + intros s. apply only_rbind; [exact IHl|]. intros r. apply only_ok.
  - destruct (assoc "toString" props); [|apply only_ok]. by intros e [= <-].
Qed.

Lemma only_loose_eq (v : jsval) (s : string) : only_TypeError (loose_eq v s).
Proof.
  destruct v; cbn [loose_eq]; try apply only_ok.
  all: apply only_rbind; [apply only_toStr|]; intros t; apply only_ok.
Qed.

Lemma only_lookup (key : string) (es : jsval) :
  only_TypeError
    (customFields <~ customFields_of es ;;
     found <~ find customFields (name_is key) ;;
     if truthy found then field_value found else Ok VNull).
Proof.
  apply only_rbind.
  { apply only_rbind; [apply only_prop|]. intros a.
    apply only_rbind; [apply only_first|]. intros a'. apply only_prop. }
  intros cf. apply only_rbind.
  { apply only_find. intros x. apply only_rbind; [apply only_prop|].
    intros a. apply only_rbind; [apply only_first|]. intros a'.
    apply only_loose_eq. }
  intros found. destruct (truthy found); [apply only_read|apply only_ok].
Qed.

(** Step 1 of [process] raises nothing but [TypeError]. *)
Lemma step1_only_TypeError (cfg : Config) (msg : jsval) :
  only_TypeError (process_step1 cfg msg).
Proof.
  unfold process_step1.
  apply only_rbind.
  { apply only_rbind; [apply only_prop|]. intros a.
    apply only_rbind; [apply only_prop|]. intros a'. apply only_first. }
  intros es. apply only_rbind; [apply only_read|]. intros eid.
  apply only_rbind; [apply only_read|]. intros cr.
  apply only_rbind; [apply only_read|]. intros st.
  apply only_rbind.
  { apply only_rbind; [apply only_loose_eq|]. intros [|]; [|apply only_ok].
    apply only_rbind; [apply only_prop|]. intros a.
    apply only_rbind; [apply only_first|]. intros a'. apply only_ok. }
  intros co. apply only_rbind; [apply only_read|]. intros su.
  apply only_rbind; [apply only_read|]. intros un.
  apply only_rbind; [apply only_read|]. intros em.
  apply only_rbind.
  { destruct co as [c|]; [|apply only_ok]. destruct (truthy c); [|apply only_ok].
    apply only_rbind; [apply only_toStr|]. intros t. apply only_ok. }
  intros cm.
  apply only_rbind; [apply (only_lookup (envelopeCustomField cfg))|]. intros ord.
  apply only_rbind; [apply (only_lookup (envelopeColorCustomField cfg))|]. intros col.
  apply only_ok.
Qed.

Lemma rbind_ok_inv {A B} (r : result A) (f : A -> result B) (b : B) :
  rbind r f = Ok b -> exists a, r = Ok a /\ f a = Ok b.
Proof. destruct r as [a|e]; cbn [rbind]; [eauto|done]. Qed.

(** Step 1 succeeds only on an envelope status with a list of custom
    fields. *)
Lemma step1_needs_fields (cfg : Config) (msg : jsval) (n : notification) :
  process_step1 cfg msg = Ok n ->
  exists es l, envelopeStatus_of msg = Ok es /\ customFields_of es = Ok (VArr l).
Proof.
  unfold process_step1. intros H.
  apply rbind_ok_inv in H as (es & Hes & H). exists es.
  do 8 (apply rbind_ok_inv in H as (? & _ & H)).
  apply rbind_ok_inv in H as (ord & Hord & _).
  unfold getOrderNumber in Hord.
  apply rbind_ok_inv in Hord as (cf & Hcf & Hfind).
  apply rbind_ok_inv in Hfind as (found & Hfind & _).
  destruct cf as [| | |l|]; try discriminate. by exists l.
Qed.

(** X14. A notification whose envelope status has no list of custom
    fields cannot be decoded, whatever its status: the extractors run
    before the filter, step 1 raises a [TypeError], the handler rejects
    with it, nothing is written and the message is not acked. *)
Theorem envelope_without_fields_is_rejected (cfg : Config) (R : Remote)
    (message : Message) (b : Body) (msg es : jsval) (s : files) :
  json message = Ok (Some b) ->
  truthy_setting (test b) = false ->
  parseStringAsync R (xml b) = Ok msg ->
  envelopeStatus_of msg = Ok es ->
  (forall l, customFields_of es <> Ok (VArr l)) ->
  out (messageHandler cfg R message s) = Throw TypeError
  /\ fs (messageHandler cfg R message s) = s
  /\ acks (evs (messageHandler cfg R message s)) = 0.
Proof.
  intros Hj Ht Hp Hes Hcf.
  assert (Hd : decode cfg R (xml b) = Err TypeError).
  { unfold decode. rewrite Hp. cbn [rbind].
    destruct (process_step1 cfg msg) as [n|e] eqn:E.
    - apply step1_needs_fields in E as (es' & l & Hes' & Hl).
      rewrite Hes in Hes'. injection Hes' as <-. by destruct (Hcf l).
    - by rewrite (step1_only_TypeError cfg msg e E). }
  rewrite messageHandler_run, Hj, process_real, Hd by done. cbn [out fs evs].
  repeat split. unfold acks. rewrite count_app, count_debug_events by done. done.
Qed.

Lemma envelope_without_fields_is_rejected_witness :
  customFields_of
    (VObj [("EnvelopeID", VArr [VStr "4f1c-02"]);
           ("Created", VArr [VStr "2019-03-01T10:00:00"]);
           ("Status", VArr [VStr "Sent"]);
           ("Subject", VArr [VStr "Please sign"]);
           ("UserName", VArr [VStr "Pat Sender"]);
           ("Email", VArr [VStr "pat@example.com"]);
           ("CustomFields", VArr [VStr ""])]) = Ok VUndefined
  /\ out (messageHandler Sample.cfg Sample2.two_orders (Sample.message "<bare/>") ∅)
     = Throw TypeError.
Proof.
  split; [reflexivity|].
  eapply (envelope_without_fields_is_rejected Sample.cfg Sample2.two_orders
            (Sample.message "<bare/>")); [reflexivity..|].
  intros l. vm_compute. discriminate.
Defined.

(** ** More on the start-up token check *)

(** X15. A DocuSign API error other than a missing consent, found by the
    start-up token check, is printed with its status and body, and the
    process is ended by [process.exit()] without a code, like the two
    other fatal cases. *)
Theorem api_problem_exits (cfg : Config) (R : Remote) (r : api_response)
    (b : api_body) (s : files) :
  configured cfg = true ->
  checkToken R = Err (ApiError (Some r)) ->
  body r = Some b ->
  error b <> Some "consent_required" ->
  testToken cfg R s
  = mkRes (Exit None) s
      [CheckToken; ConsoleLog (MsgApiProblem (status r) (json_text b))].
Proof.
  unfold configured. intros [Hc Hp%negb_true_iff]%andb_true_iff Htok Hb He.
  unfold testToken, dsJwtAuth_checkToken, console_log.
  unfold try_catch, bind, emit, process_exit, lift, ret, throw.
  rewrite Hc, Hp. cbn [negb orb app]. rewrite Htok, Hb.
  rewrite (bool_decide_eq_false_2 _ He), andb_false_r. done.
Qed.

Lemma api_problem_exits_witness :
  configured Sample.cfg = true
  /\ testToken Sample.cfg Sample2.remote_api_problem ∅
     = mkRes (Exit None) ∅ [CheckToken; ConsoleLog (MsgApiProblem "401" "{...}")].
Proof.
  split; [reflexivity|].
  apply (api_problem_exits Sample.cfg Sample2.remote_api_problem
           {| status := "401";
              body := Some {| error := Some "invalid_grant"; json_text := "{...}" |} |}
           {| error := Some "invalid_grant"; json_text := "{...}" |} ∅
           eq_refl eq_refl eq_refl).
  discriminate.
Defined.

(** X16. The start-up token check never touches the file system. It
    returns exactly when the configuration is filled in and the token
    provider answers; it raises only what the token provider raised, and
    only an error without a response body, which it lets through without
    printing anything. *)
Theorem token_check_outcomes (cfg : Config) (R : Remote) (s : files) :
  fs (testToken cfg R s) = s
  /\ (out (testToken cfg R s) = Ret tt <-> configured cfg = true /\ checkToken R = Ok tt)
  /\ (forall e, out (testToken cfg R s) = Throw e <->
        configured cfg = true /\ checkToken R = Err e /\ no_response_body e)
  /\ (forall e, out (testToken cfg R s) = Throw e ->
        evs (testToken cfg R s) = [CheckToken]).
Proof.
  unfold configured, testToken, dsJwtAuth_checkToken, console_log.
  unfold try_catch, bind, emit, process_exit, lift, ret, throw.
  destruct (truthy_setting (clientId cfg)); cbn [negb orb andb].
  2: { cbn [out fs evs]. naive_solver. }
  destruct (bool_decide (clientId cfg = Some "{CLIENT_ID}")); cbn [negb orb andb].
  { cbn [out fs evs]. naive_solver. }
  destruct (checkToken R) as [[]|e]; cbn [app out fs evs].
  { naive_solver. }
  assert (Hcase : (exists r b, e = ApiError (Some r) /\ body r = Some b)
                  \/ no_response_body e).
  { destruct e as [| | |[r|]| |]; try (by right).
    destruct (body r) as [b|] eqn:Hb; [left; eauto|by right]. }
  destruct Hcase as [(r & b & -> & Hb)|Hno].
  - rewrite Hb.
    destruct (truthy_setting (error b) && bool_decide (error b = Some "consent_required")).
    all: cbn [out fs evs no_response_body]; naive_solver.
  - assert (match e with ApiError (Some r) => body r | _ => None end = None) as ->.
    { destruct e as [| | |[r|]| |]; try done. }
    cbn [out fs evs]. naive_solver.
Qed.

Lemma token_check_outcomes_witness :
  no_response_body (ApiError None)
  /\ out (testToken Sample.cfg Sample2.remote_offline ∅) = Throw (ApiError None)
  /\ out (testToken Sample.cfg Sample.remote ∅) = Ret tt.
Proof.
  destruct (token_check_outcomes Sample.cfg Sample2.remote_offline ∅)
    as (_ & _ & Hthrow & _).
  destruct (token_check_outcomes Sample.cfg Sample.remote ∅) as (_ & Hret & _).
  split; [exact I|]. split.
  - apply Hthrow. repeat split; reflexivity.
  - apply Hret. split; reflexivity.
Defined.

(** ** The queue listener *)

Section ListenerFacts.

Import Listener.

Context (connect : nat -> option (stage * exn)).

Lemma turns_idle (n : nat) (st : state) :
  restart st = false -> turns connect n st = (st, replicate n (Sleep 5)).
Proof.
  intros Hr. induction n as [|k IH]; [reflexivity|].
  cbn [turns]. unfold turn at 1. rewrite Hr, IH. reflexivity.
Qed.

Lemma turns_from_start (n : nat) :
  turns connect (S n) initial
  = ({| restart := false;
        subscription := match connect 0 with
                        | Some (NewPubSub, _) | Some (GetSubscription, _) => false
                        | _ => true
                        end;
        attempts := 1 |},
     (Starting :: first_start connect ++ [Sleep 5; Sleep 5] ++ replicate n (Sleep 5))%list).
Proof.
  cbn [turns]. unfold turn at 1, startQueue, first_start, initial.
  cbn [restart attempts subscription].
  destruct (connect 0) as [[[] e]|]; rewrite turns_idle by done.
  all: cbn [app]; by rewrite <- ?app_assoc.
Qed.

Lemma lcount_app (p : levent -> bool) (l1 l2 : list levent) :
  lcount p (l1 ++ l2) = lcount p l1 + lcount p l2.
Proof. induction l1 as [|e l1 IH]; cbn [app lcount]; [done|]. rewrite IH. lia. Qed.

Lemma lcount_sleeps (p : levent -> bool) (n k : nat) :
  p (Sleep k) = false -> lcount p (replicate n (Sleep k)) = 0.
Proof. intros Hp. induction n as [|m IH]; cbn [replicate lcount]; [done|]. by rewrite Hp. Qed.

Lemma lcount_worker (p : levent -> bool) (l : list event) :
  (forall e, p (Worker e) = false) -> lcount p (map Worker l) = 0.
Proof. intros Hp. induction l as [|e l IH]; cbn [map lcount]; [done|]. by rewrite Hp. Qed.

(** X17. Once the token check has passed, [listenForever] calls
    [startQueue] once, in its first turn, and never again, however many
    turns follow and whether or not the call succeeded: the handler of a
    failed start sets [restart], but the loop clears it right after. When
    the first start fails the worker never listens. *)
Theorem queue_is_started_once (cfg : Config) (R : Remote) (n : nat) (s : files) :
  configured cfg = true ->
  checkToken R = Ok tt ->
  exists st,
    listenForever connect cfg R (S n) s
    = (Running st,
       (Worker CheckToken :: Starting :: first_start connect ++
        [Sleep 5; Sleep 5] ++ replicate n (Sleep 5))%list)
    /\ restart st = false
    /\ attempts st = 1
    /\ lcount is_starting (snd (listenForever connect cfg R (S n) s)) = 1
    /\ lcount is_listening (snd (listenForever connect cfg R (S n) s))
       = match connect 0 with None => 1 | Some _ => 0 end.
Proof.
  unfold configured. intros [Hc Hp%negb_true_iff]%andb_true_iff Htok.
  assert (Ht : testToken cfg R s = mkRes (Ret tt) s [CheckToken]).
  { unfold testToken, dsJwtAuth_checkToken, console_log.
    unfold try_catch, bind, emit, process_exit, lift, ret, throw.
    rewrite Hc, Hp. cbn [negb orb app]. by rewrite Htok. }
  unfold listenForever. rewrite Ht, turns_from_start. cbn [map app snd].
  eexists. split; [reflexivity|]. cbn [restart attempts lcount is_starting is_listening].
  split; [done|]. split; [done|].
  rewrite !lcount_app. cbn [lcount is_starting is_listening].
  rewrite !lcount_sleeps by done. unfold first_start.
  split.
  - by destruct (connect 0) as [[[] e]|].
  - by destruct (connect 0) as [[[] e]|].
Qed.

(** X18. When the start-up token check raises or ends the process,
    [listenForever] does not enter its loop: the queue is never started
    and nothing is listened to. *)
Theorem queue_not_started_without_token (cfg : Config) (R : Remote) (n : nat)
    (s : files) :
  out (testToken cfg R s) <> Ret tt ->
  (forall st, fst (listenForever connect cfg R n s) <> Running st)
  /\ snd (listenForever connect cfg R n s) = map Worker (evs (testToken cfg R s))
  /\ lcount is_starting (snd (listenForever connect cfg R n s)) = 0
  /\ lcount is_listening (snd (listenForever connect cfg R n s)) = 0.
Proof.
  intros Hout. unfold listenForever.
  destruct (testToken cfg R s) as [[[]|e|c] f ev]; cbn [out evs] in *; [done| |].
  all: cbn [fst snd]; rewrite !lcount_worker by done; done.
Qed.

End ListenerFacts.

Lemma queue_is_started_once_witness :
  configured Sample.cfg = true
  /\ snd (Listener.listenForever Sample2.down_once Sample.cfg Sample.remote 3 ∅)
     = [Listener.Worker CheckToken; Listener.Starting;
        Listener.QueueError (JsError "Could not load the default credentials");
        Listener.Sleep 5; Listener.Sleep 5; Listener.Sleep 5;
        Listener.Sleep 5; Listener.Sleep 5].
Proof.
  split; [reflexivity|].
  destruct (queue_is_started_once Sample2.down_once Sample.cfg Sample.remote 2 ∅
              eq_refl eq_refl) as (st & -> & _).
  reflexivity.
Defined.

Lemma queue_not_started_without_token_witness :
  out (testToken Sample.unconfigured Sample.remote ∅) = Exit None
  /\ Listener.lcount Listener.is_starting
       (snd (Listener.listenForever Sample2.down_once Sample.unconfigured
               Sample.remote 7 ∅)) = 0.
Proof.
  split; [reflexivity|].
  apply (queue_not_started_without_token Sample2.down_once Sample.unconfigured
           Sample.remote 7 ∅).
  discriminate.
Defined.

(** ** The debug setting *)

Lemma calls_app (l1 l2 : list event) : calls (l1 ++ l2) = (calls l1 ++ calls l2)%list.
Proof. apply List.filter_app. Qed.

Lemma calls_debug_events (cfg : Config) (message : Message) :
  calls (debug_events cfg message) = [].
Proof. unfold debug_events. by destruct (debug cfg). Qed.

Lemma process_debug (cfg : Config) (R : Remote) (d : bool) (t : option string)
    (xml : string) (s : files) :
  out (process (with_debug d cfg) R t xml s) = out (process cfg R t xml s)
  /\ fs (process (with_debug d cfg) R t xml s) = fs (process cfg R t xml s)
  /\ calls (evs (process (with_debug d cfg) R t xml s))
     = calls (evs (process cfg R t xml s)).
Proof.
  destruct (truthy_setting t) eqn:Ht.
  - unfold process. rewrite Ht.
    change (processTest (with_debug d cfg)) with (processTest cfg). done.
  - rewrite !process_real by done.
    change (decode (with_debug d cfg)) with (decode cfg).
    destruct (decode cfg R xml) as [n|e]; [|done].
    change (saveDoc (with_debug d cfg)) with (saveDoc cfg).
    change (lifx_enabled (with_debug d cfg)) with (lifx_enabled cfg).
    change (lifx_request (with_debug d cfg)) with (lifx_request cfg).
    destruct (eligible n); [done|].
    cbn [out fs evs debug with_debug]. repeat split.
    by destruct d, (debug cfg).
Qed.

(** X19. The [debug] setting changes the console output only: with it on
    or off the handler ends the same way, leaves the same file system and
    makes the same calls (token check, document fetch, LIFX, ack) in the
    same order. *)
Theorem debug_only_adds_lines (cfg : Config) (R : Remote) (d : bool)
    (message : Message) (s : files) :
  out (messageHandler (with_debug d cfg) R message s)
  = out (messageHandler cfg R message s)
  /\ fs (messageHandler (with_debug d cfg) R message s)
     = fs (messageHandler cfg R message s)
  /\ calls (evs (messageHandler (with_debug d cfg) R message s))
     = calls (evs (messageHandler cfg R message s)).
Proof.
  rewrite !messageHandler_run.
  destruct (json message) as [[b|]|e].
  - destruct (process_debug cfg R d (test b) (xml b) s) as (Ho & Hf & Hc).
    destruct (process (with_debug d cfg) R (test b) (xml b) s) as [o1 f1 e1].
    destruct (process cfg R (test b) (xml b) s) as [o2 f2 e2].
    cbn [out fs evs] in *. subst o2 f2.
    destruct o1 as [[]|e|c]; cbn [out fs evs]; repeat split.
    all: rewrite !calls_app, !calls_debug_events, ?Hc; done.
  - cbn [out fs evs]. repeat split.
    by rewrite !calls_app, !calls_debug_events.
  - cbn [out fs evs]. repeat split.
    by rewrite !calls_app, !calls_debug_events.
Qed.
